(** * school-api: the Student and Teacher resource handlers

    A shallow embedding of [student.controller.js] and
    [teacher.controller.js]: ten Express handlers, each a short
    sequence of awaited calls on the persistence collaborator (the
    Sequelize models behind [db]) wrapped in a [try]/[catch].

    - JavaScript values the handlers touch are modelled directly:
      query parameters as optional strings, numbers as integers or
      [NaN], objects as finite maps.
    - A handler is a program over the persistence operations, with a
      success and a failure continuation at every [await]; running it
      against any collaborator gives how the promise settles, the
      world the collaborator is left in and the calls that were made. *)

From stdpp Require Import base option strings gmap list.
From Stdlib Require Import Ascii String ZArith Lia.
From Stdlib Require DecimalString DecimalZ DecimalPos.

Local Open Scope Z_scope.

(** ** JavaScript primitives used by the handlers *)

Module JS.

(** A number is either [NaN] or an integer.  The handlers only ever
    build numbers from [parseInt], a record count and [+ - * /
    Math.ceil] on those.  A double holds an integer exactly only below
    2^53 in magnitude; beyond that the code's numbers round (and reach
    [Infinity]) where the integers here do not.  Every statement about
    the value of a page, a limit, an offset or a count therefore
    carries the hypothesis that these are safe integers
    ([safe_integer], [exact_page_and_limit] below).  [-0] is [Num 0]:
    both are falsy and serialise alike. *)
Inductive Number : Type :=
| NaN
| Num (z : Z).

(** Characters are code units below 256.  [StrWhiteSpaceChar] in that
    range: TAB, LF, VT, FF, CR, SP and NBSP. *)
Definition isWhiteSpace (c : ascii) : bool :=
  let n := Z.of_N (N_of_ascii c) in
  ((9 <=? n) && (n <=? 13)) || (n =? 32) || (n =? 160).

Fixpoint trimStart (s : string) : string :=
  match s with
  | String c r => if isWhiteSpace c then trimStart r else s
  | EmptyString => EmptyString
  end.

(** The value of a character as a digit: 0-9, then a-z / A-Z for
    10-35. *)
Definition digitValue (c : ascii) : option Z :=
  let n := Z.of_N (N_of_ascii c) in
  if (48 <=? n) && (n <=? 57) then Some (n - 48)
  else if (97 <=? n) && (n <=? 122) then Some (n - 87)
  else if (65 <=? n) && (n <=? 90) then Some (n - 55)
  else None.

Definition radixDigit (R : Z) (c : ascii) : option Z :=
  match digitValue c with
  | Some d => if d <? R then Some d else None
  | None => None
  end.

(** Reads digits up to the first character that is not a radix-R
    digit. *)
Fixpoint scanDigits (R : Z) (s : string) (acc : Z) : Z :=
  match s with
  | String c r =>
      match radixDigit R c with
      | Some d => scanDigits R r (acc * R + d)
      | None => acc
      end
  | EmptyString => acc
  end.

Definition parseDigits (R : Z) (s : string) : Number :=
  match s with
  | String c r =>
      match radixDigit R c with
      | Some d => Num (scanDigits R r d)
      | None => NaN
      end
  | EmptyString => NaN
  end.

(** A leading [-] or [+] is taken off; [-] makes the sign -1. *)
Definition takeSign (str : string) : Z * string :=
  match str with
  | String "-" r => (-1, r)
  | String "+" r => (1, r)
  | _ => (1, str)
  end.

(** With no radix argument: a leading [0x] or [0X] is taken off and
    the radix is 16, otherwise it is 10. *)
Definition takeRadix (str : string) : Z * string :=
  match str with
  | String "0" (String "x" r) => (16, r)
  | String "0" (String "X" r) => (16, r)
  | _ => (10, str)
  end.

(** [parseInt(string)] with no radix argument (ECMA-262, 19.2.5):
    trim leading white space, take a sign, strip a [0x]/[0X] prefix,
    read the longest digit prefix; no digit gives [NaN]. *)
Definition parseInt (input : string) : Number :=
  let '(sign, str) := takeSign (trimStart input) in
  let '(R, str) := takeRadix str in
  match parseDigits R str with
  | NaN => NaN
  | Num m => Num (sign * m)
  end.

(** [ToString] of a query parameter: a missing one is [undefined]. *)
Definition ToString (v : option string) : string :=
  match v with
  | Some s => s
  | None => "undefined"
  end.

(** [x || d] for a number [x] and a non-zero default [d]: [NaN] and
    [0] are falsy. *)
Definition numOr (x : Number) (d : Z) : Z :=
  match x with
  | NaN => d
  | Num n => if n =? 0 then d else n
  end.

(** Truthiness of a string-or-undefined: only a non-empty string. *)
Definition truthy (v : option string) : bool :=
  match v with
  | Some (String _ _) => true
  | _ => false
  end.

(** [x || d] for a string-or-undefined [x]. *)
Definition strOr (v : option string) (d : string) : string :=
  match v with
  | Some s => if truthy v then s else d
  | None => d
  end.

(** [s.split(',')]: never empty, [''.split(',')] is [['']]. *)
Fixpoint split_comma (s : string) : list string :=
  match s with
  | EmptyString => [EmptyString]
  | String c r =>
      if Ascii.eqb c ","
      then EmptyString :: split_comma r
      else match split_comma r with
           | h :: t => String c h :: t
           | [] => [String c EmptyString]
           end
  end.

(** [arr.find(e => e === x)] *)
Definition find_eq (x : string) (arr : list string) : option string :=
  List.find (fun e => bool_decide (e = x)) arr.

(** [Math.ceil(a / b)] on integers, [b] not zero: the ceiling of the
    rational quotient.  For safe integers [a] and [b] the double
    quotient never rounds onto the integer below a fractional
    quotient, so [Math.ceil] of it is this ceiling; beyond that range
    the two part.  [Z.div] rounds towards minus infinity for either
    sign of [b]. *)
Definition Math_ceil_div (a b : Z) : Z := - ((- a) / b).

End JS.

(** ** Data model *)

(** The three Sequelize models reachable through [db]. *)
Inductive Model : Type := Student | Teacher | Course.

#[global] Instance Model_eq_dec : EqDecision Model.
Proof. solve_decision. Defined.

(** Attribute values of a record or of a request body. *)
Inductive Value : Type :=
| VNull
| VBool (b : bool)
| VNum (n : Z)
| VStr (s : string).

(** A model instance as the collaborator hands it out: the model it
    belongs to, its primary key, its attributes ([dataValues]) and, when
    the lookup asked for the join, the associated Course rows. *)
Record Instance : Type := {
  inst_model : Model;
  inst_pk : Z;
  dataValues : gmap string Value;
  Courses : option (list (gmap string Value))
}.

(** What a handler reads of a thrown value: [err.message]. *)
Record Error : Type := { message : string }.

(** The options object of [findAll]. *)
Record FindOptions : Type := {
  include : list Model;
  limit : Z;
  offset : Z;
  order : list (string * string)
}.

(** What a handler reads of [req]: [req.query], [req.params.id] and
    [req.body].  A query parameter is given at most once, as a string:
    requests that repeat a key or use brackets in it, for which Express
    hands over an array or an object, are outside this type (on such a
    [populate] the list handlers throw at [.split], outside their
    [try]). *)
Record Request : Type := {
  query : gmap string string;
  params_id : string;
  body : gmap string Value
}.

Record Meta : Type := { totalItems : Z; page : Z; totalPages : Z }.

(** The JSON bodies the handlers send. *)
Inductive Body : Type :=
| BInstance (i : Instance)                    (* res.json(student) *)
| BPage (meta : Meta) (data : list Instance)  (* {meta: {...}, data} *)
| BMessage (msg : string)                     (* {message: msg} *)
| BError (msg : string).                      (* {error: msg} *)

Record Response : Type := { status : Z; json : Body }.

(** ** Handlers as programs over the persistence operations *)

(** The calls a handler awaits, indexed by what they resolve with.
    [update] and [destroy] are the instance methods; [update] mutates the
    instance in place, so it resolves with the instance as it is after
    the call and the handler goes on with that one. *)
Inductive Op : Type -> Type :=
| create (m : Model) (values : gmap string Value) : Op Instance
| findAll (m : Model) (options : FindOptions) : Op (list Instance)
| findByPk (m : Model) (pk : string) (inc : option Model) : Op (option Instance)
| count (m : Model) : Op Z
| update (inst : Instance) (values : gmap string Value) : Op Instance
| destroy (inst : Instance) : Op unit.

(** An async function body: it returns, throws, or awaits a call and
    goes on with [k] when the call resolves and with [h] when it
    rejects. *)
Inductive Prog (A : Type) : Type :=
| Ret (a : A)
| Throw (e : Error)
| Await {X : Type} (op : Op X) (k : X -> Prog A) (h : Error -> Prog A).

Arguments Ret {A} a.
Arguments Throw {A} e.
Arguments Await {A X} op k h.

(** [await op] outside any [try]: a rejection is rethrown. *)
Definition await {X : Type} (op : Op X) : Prog X := Await op Ret Throw.

Fixpoint bind {A B : Type} (p : Prog A) (f : A -> Prog B) : Prog B :=
  match p with
  | Ret a => f a
  | Throw e => Throw e
  | Await op k h => Await op (fun x => bind (k x) f) (fun e => bind (h e) f)
  end.

(** [try { p } catch (err) { handler err }] *)
Fixpoint try_catch {A : Type} (p : Prog A) (handler : Error -> Prog A) : Prog A :=
  match p with
  | Ret a => Ret a
  | Throw e => handler e
  | Await op k h =>
      Await op (fun x => try_catch (k x) handler)
               (fun e => try_catch (h e) handler)
  end.

Notation "'let*' x ':=' p 'in' q" := (bind p (fun x => q))
  (at level 10, x name, p at level 100, q at level 200).
Notation "'do*' p 'in' q" := (bind p (fun _ => q))
  (at level 10, p at level 100, q at level 200).

(** [res.json(b)] with the status left at its default, and
    [res.status(c).json(b)]. *)
Definition res_json (b : Body) : Prog Response :=
  Ret {| status := 200; json := b |}.
Definition res_status_json (c : Z) (b : Body) : Prog Response :=
  Ret {| status := c; json := b |}.

(** *** student.controller.js *)

Definition createStudent (req : Request) : Prog Response :=
  try_catch
    (let* student := await (create Student (body req)) in
     res_status_json 201 (BInstance student))
    (fun err => res_status_json 500 (BError (message err))).

Definition getAllStudents (req : Request) : Prog Response :=
  let limit := JS.numOr (JS.parseInt (JS.ToString (query req !! "limit"))) 10 in
  let page := JS.numOr (JS.parseInt (JS.ToString (query req !! "page"))) 1 in
  let sortBy := JS.strOr (query req !! "sortBy") "id" in
  let order := JS.strOr (query req !! "order") "asc" in
  let* total := await (count Course) in
  let populate :=
    match query req !! "populate" with
    | Some s => JS.split_comma s
    | None => []
    end in
  let includes :=
    if JS.truthy (JS.find_eq "Course" populate) then [Course] else [] in
  try_catch
    (let* students := await (findAll Student
                   {| include := includes;
                      limit := limit; offset := (page - 1) * limit;
                      order := [(sortBy, order)] |}) in
     res_json (BPage {| totalItems := total;
                        page := page;
                        totalPages := JS.Math_ceil_div total limit |}
                     students))
    (fun err => res_status_json 500 (BError (message err))).

Definition getStudentById (req : Request) : Prog Response :=
  try_catch
    (let* student := await (findByPk Student (params_id req) (Some Course)) in
     match student with
     | None => res_status_json 404 (BMessage "Not found")
     | Some student => res_json (BInstance student)
     end)
    (fun err => res_status_json 500 (BError (message err))).

Definition updateStudent (req : Request) : Prog Response :=
  try_catch
    (let* student := await (findByPk Student (params_id req) None) in
     match student with
     | None => res_status_json 404 (BMessage "Not found")
     | Some student =>
         let* student := await (update student (body req)) in
         res_json (BInstance student)
     end)
    (fun err => res_status_json 500 (BError (message err))).

Definition deleteStudent (req : Request) : Prog Response :=
  try_catch
    (let* student := await (findByPk Student (params_id req) None) in
     match student with
     | None => res_status_json 404 (BMessage "Not found")
     | Some student =>
         do* await (destroy student) in
         res_json (BMessage "Deleted")
     end)
    (fun err => res_status_json 500 (BError (message err))).

(** *** teacher.controller.js *)

Definition createTeacher (req : Request) : Prog Response :=
  try_catch
    (let* teacher := await (create Teacher (body req)) in
     res_status_json 201 (BInstance teacher))
    (fun err => res_status_json 500 (BError (message err))).

Definition getAllTeachers (req : Request) : Prog Response :=
  let limit := JS.numOr (JS.parseInt (JS.ToString (query req !! "limit"))) 10 in
  let page := JS.numOr (JS.parseInt (JS.ToString (query req !! "page"))) 1 in
  let sortBy := JS.strOr (query req !! "sortBy") "id" in
  let order := JS.strOr (query req !! "order") "asc" in
  let populate :=
    match query req !! "populate" with
    | Some s => JS.split_comma s
    | None => []
    end in
  let includes :=
    if JS.truthy (JS.find_eq "Course" populate) then [Course] else [] in
  let* total := await (count Course) in
  try_catch
    (let* teachers := await (findAll Teacher
                   {| include := includes;
                      limit := limit; offset := (page - 1) * limit;
                      order := [(sortBy, order)] |}) in
     res_json (BPage {| totalItems := total;
                        page := page;
                        totalPages := JS.Math_ceil_div total limit |}
                     teachers))
    (fun err => res_status_json 500 (BError (message err))).

Definition getTeacherById (req : Request) : Prog Response :=
  try_catch
    (let* teacher := await (findByPk Teacher (params_id req) (Some Course)) in
     match teacher with
     | None => res_status_json 404 (BMessage "Not found")
     | Some teacher => res_json (BInstance teacher)
     end)
    (fun err => res_status_json 500 (BError (message err))).

Definition updateTeacher (req : Request) : Prog Response :=
  try_catch
    (let* teacher := await (findByPk Teacher (params_id req) None) in
     match teacher with
     | None => res_status_json 404 (BMessage "Not found")
     | Some teacher =>
         let* teacher := await (update teacher (body req)) in
         res_json (BInstance teacher)
     end)
    (fun err => res_status_json 500 (BError (message err))).

Definition deleteTeacher (req : Request) : Prog Response :=
  try_catch
    (let* teacher := await (findByPk Teacher (params_id req) None) in
     match teacher with
     | None => res_status_json 404 (BMessage "Not found")
     | Some teacher =>
         do* await (destroy teacher) in
         res_json (BMessage "Deleted")
     end)
    (fun err => res_status_json 500 (BError (message err))).

(** *** The two controllers side by side *)

Inductive Controller : Type := StudentController | TeacherController.

Inductive Action : Type := Create | List | GetById | Update | Delete.

(** The model a controller serves: [db.Student] or [db.Teacher]. *)
Definition entity (ctrl : Controller) : Model :=
  match ctrl with
  | StudentController => Student
  | TeacherController => Teacher
  end.

Definition handler (ctrl : Controller) (a : Action) : Request -> Prog Response :=
  match ctrl, a with
  | StudentController, Create => createStudent
  | StudentController, List => getAllStudents
  | StudentController, GetById => getStudentById
  | StudentController, Update => updateStudent
  | StudentController, Delete => deleteStudent
  | TeacherController, Create => createTeacher
  | TeacherController, List => getAllTeachers
  | TeacherController, GetById => getTeacherById
  | TeacherController, Update => updateTeacher
  | TeacherController, Delete => deleteTeacher
  end.

(** The locals of the list handlers, by name. *)
Definition effective_limit (req : Request) : Z :=
  JS.numOr (JS.parseInt (JS.ToString (query req !! "limit"))) 10.

Definition effective_page (req : Request) : Z :=
  JS.numOr (JS.parseInt (JS.ToString (query req !! "page"))) 1.

Definition effective_sortBy (req : Request) : string :=
  JS.strOr (query req !! "sortBy") "id".

Definition effective_order (req : Request) : string :=
  JS.strOr (query req !! "order") "asc".

Definition populate_of (req : Request) : list string :=
  match query req !! "populate" with
  | Some s => JS.split_comma s
  | None => []
  end.

Definition includes_of (req : Request) : list Model :=
  if JS.truthy (JS.find_eq "Course" (populate_of req)) then [Course] else [].

(** The argument of [findAll] in the list handlers.  The offset is the
    exact product; it is the code's double product when page, limit
    and the product are safe integers. *)
Definition findAll_options (req : Request) : FindOptions :=
  {| include := includes_of req;
     limit := effective_limit req;
     offset := (effective_page req - 1) * effective_limit req;
     order := [(effective_sortBy req, effective_order req)] |}.

(** ** Running a handler against a collaborator *)

(** How an awaited call, or the handler itself, settles. *)
Inductive Promise (A : Type) : Type :=
| Resolved (a : A)
| Rejected (e : Error).

Arguments Resolved {A} a.
Arguments Rejected {A} e.

(** The persistence collaborator: in a world [w] it settles each call
    and leaves a world behind.  Nothing is assumed of it; in particular
    any call may reject. *)
Record Collaborator (W : Type) : Type := {
  answer : forall X : Type, Op X -> W -> Promise X * W
}.

Arguments answer {W} c {X} op w.

Inductive Call : Type :=
| Called {X : Type} (op : Op X).

(** The outcome of one handler invocation: how the handler's promise
    settled ([Resolved r]: the response [r] was sent; [Rejected e]: [e]
    escaped the handler and nothing was sent), the world afterwards and
    the calls made, in order. *)
Record Run (A W : Type) : Type := {
  settled : Promise A;
  world : W;
  calls : list Call
}.

Arguments settled {A W} r.
Arguments world {A W} r.
Arguments calls {A W} r.

Fixpoint exec {W A : Type} (c : Collaborator W) (p : Prog A) (w : W) : Run A W :=
  match p with
  | Ret a => {| settled := Resolved a; world := w; calls := [] |}
  | Throw e => {| settled := Rejected e; world := w; calls := [] |}
  | Await op k h =>
      let '(r, w1) := answer c op w in
      let rest :=
        match r with
        | Resolved x => exec c (k x) w1
        | Rejected e => exec c (h e) w1
        end in
      {| settled := settled rest; world := world rest;
         calls := Called op :: calls rest |}
  end.

(** Reading a trace. *)
Definition findAllCall (cl : Call) : option (Model * FindOptions) :=
  match cl with
  | Called op =>
      match op with
      | findAll m o => Some (m, o)
      | _ => None
      end
  end.

Definition findByPkCall (cl : Call) : option (Model * string * option Model) :=
  match cl with
  | Called op =>
      match op with
      | findByPk m pk inc => Some (m, pk, inc)
      | _ => None
      end
  end.

Definition countCall (cl : Call) : option Model :=
  match cl with
  | Called op =>
      match op with
      | count m => Some m
      | _ => None
      end
  end.

(** Calls that write: [create], [update], [destroy]. *)
Definition writes (cl : Call) : bool :=
  match cl with
  | Called op =>
      match op with
      | create _ _ | update _ _ | destroy _ => true
      | _ => false
      end
  end.

Definition findAllCalls (tr : list Call) : list (Model * FindOptions) :=
  omap findAllCall tr.
Definition findByPkCalls (tr : list Call) : list (Model * string * option Model) :=
  omap findByPkCall tr.
Definition countCalls (tr : list Call) : list Model :=
  omap countCall tr.

(** ** Collaborators to run against *)

(** A database that is down: every call rejects with the same error. *)
Definition unavailable {W : Type} (e : Error) : Collaborator W :=
  {| answer := fun X _ w => (Rejected e, w) |}.

(** A fixed-answer double: [count] resolves with [n], [findAll] with
    [rows], [findByPk] with [found]; writes resolve. *)
Definition canned (n : Z) (rows : list Instance) (found : option Instance)
  : Collaborator unit :=
  {| answer := fun X op w =>
       match op in Op X return Promise X * unit with
       | create m values =>
           (Resolved {| inst_model := m; inst_pk := 1;
                        dataValues := values; Courses := None |}, w)
       | findAll _ _ => (Resolved rows, w)
       | findByPk _ _ _ => (Resolved found, w)
       | count _ => (Resolved n, w)
       | update inst values =>
           (Resolved {| inst_model := inst_model inst; inst_pk := inst_pk inst;
                        dataValues := values ∪ dataValues inst;
                        Courses := Courses inst |}, w)
       | destroy _ => (Resolved tt, w)
       end |}.

(** ** A reference persistence layer

    The models behind [db] and the object-relational mapper under them
    are not part of the controllers.  What the handlers' observable
    behaviour on stored records depends on is modelled here. *)

(** The stored rows of each model, by primary key. *)
Record Store : Type := { table : Model -> gmap Z (gmap string Value) }.

Definition with_table (st : Store) (m : Model)
    (t : gmap Z (gmap string Value)) : Store :=
  {| table := fun m' => if decide (m' = m) then t else table st m' |}.

(** Modelled from the spec: the partial patch of the update operation,
    whose implementation (the instance method [update] of the mapper) is
    missing.  "Fields not present in the patch are left unchanged", "only
    supplied fields change", and "[id] is immutable once assigned": the
    patch, without an [id] entry, laid over the existing attributes. *)
Definition apply_patch (patch row : gmap string Value) : gmap string Value :=
  delete "id" patch ∪ row.

Section Reference.

(** Owned by the persistence layer and left open: how the key text of
    a request is read, which Course rows a join attaches, and the
    calls the claims on stored records do not involve ([create],
    [findAll], [count]). *)
Variable pk_of : string -> option Z.
Variable joined : Store -> Model -> Z -> list (gmap string Value).
Variable base : Collaborator Store.

(** Modelled from the spec: [findByPk], missing with the models.  A
    record "exists" when its model's table has a row under the key;
    the lookup resolves with it, or with null, and changes nothing. *)
Definition ref_findByPk (m : Model) (pk : string) (inc : option Model)
    (st : Store) : Promise (option Instance) * Store :=
  match pk_of pk with
  | Some k =>
      match table st m !! k with
      | Some row =>
          (Resolved (Some {| inst_model := m; inst_pk := k;
                             dataValues := row;
                             Courses := match inc with
                                        | Some _ => Some (joined st m k)
                                        | None => None
                                        end |}), st)
      | None => (Resolved None, st)
      end
  | None => (Resolved None, st)
  end.

(** Modelled from the spec: the instance method [update], missing with
    the models: "applies the patch (only supplied fields change) and
    persists it". *)
Definition ref_update (inst : Instance) (patch : gmap string Value)
    (st : Store) : Promise Instance * Store :=
  let m := inst_model inst in
  (Resolved {| inst_model := m; inst_pk := inst_pk inst;
               dataValues := apply_patch patch (dataValues inst);
               Courses := Courses inst |},
   with_table st m (alter (apply_patch patch) (inst_pk inst) (table st m))).

(** Modelled from the spec: the instance method [destroy], missing
    with the models: "permanently removes it". *)
Definition ref_destroy (inst : Instance) (st : Store) : Promise unit * Store :=
  let m := inst_model inst in
  (Resolved tt, with_table st m (delete (inst_pk inst) (table st m))).

Definition reference : Collaborator Store :=
  {| answer := fun X op =>
       match op in Op X return Store -> Promise X * Store with
       | findByPk m pk inc => ref_findByPk m pk inc
       | update inst patch => ref_update inst patch
       | destroy inst => ref_destroy inst
       | op' => answer base op'
       end |}.

End Reference.

(** ** Notions the statements use *)

(** [n] is the ceiling of the quotient [a / b], [b] not zero: the least
    integer not below it. *)
Definition ceiling_of_quotient (a b n : Z) : Prop :=
  (0 < b -> (n - 1) * b < a <= n * b) /\
  (b < 0 -> n * b <= a < (n - 1) * b).

(** The [populate] parameter, split on commas, has the element
    ["Course"]. *)
Definition populate_has_Course (req : Request) : Prop :=
  exists s, query req !! "populate" = Some s /\ "Course" ∈ JS.split_comma s.

(** No character of the string is a decimal digit. *)
Definition isDecimalDigit (c : ascii) : bool :=
  let n := Z.of_N (N_of_ascii c) in (48 <=? n) && (n <=? 57).

Fixpoint no_digit (s : string) : bool :=
  match s with
  | EmptyString => true
  | String c r => negb (isDecimalDigit c) && no_digit r
  end.

(** How the reference layer is set up where a concrete one is needed:
    the key text is read as [parseInt] reads it, joins attach nothing,
    and the calls it leaves open are down. *)
Definition pk_parse (pk : string) : option Z :=
  match JS.parseInt pk with
  | JS.Num k => Some k
  | JS.NaN => None
  end.

Definition reference_db : Collaborator Store :=
  reference pk_parse (fun _ _ _ => [])
            (unavailable {| message := "not connected" |}).

(** One teacher on file. *)
Definition ada : gmap string Value :=
  {[ "id" := VNum 7; "name" := VStr "Ada"; "department" := VStr "Maths" ]}.

Definition one_teacher : Store :=
  {| table := fun m => match m with Teacher => {[ 7 := ada ]} | _ => ∅ end |}.

Definition rename_to_X : Request :=
  {| query := ∅; params_id := "7"; body := {[ "name" := VStr "X" ]} |}.

(** A request with nothing in it but the query parameters given. *)
Definition request_with (q : list (string * string)) : Request :=
  {| query := list_to_map q; params_id := "1"; body := ∅ |}.

(** ** Notions for reading whole runs and whole parameters *)

(** The model a static call is made on ([db.Student.create], ...); the
    instance methods [update] and [destroy] are made on an instance. *)
Definition addressed (cl : Call) : option Model :=
  match cl with
  | Called op =>
      match op with
      | create m _ | findAll m _ | findByPk m _ _ | count m => Some m
      | update _ _ | destroy _ => None
      end
  end.

(** The errors the calls of a run rejected with, in order. *)
Fixpoint failures {W A : Type} (c : Collaborator W) (p : Prog A) (w : W)
    : list Error :=
  match p with
  | Ret _ | Throw _ => []
  | Await op k h =>
      let '(r, w1) := answer c op w in
      match r with
      | Resolved x => failures c (k x) w1
      | Rejected e => e :: failures c (h e) w1
      end
  end.

(** [Number.isSafeInteger]: an integer that a double holds exactly. *)
Definition safe_integer (n : Z) : Prop := Z.abs n < 2 ^ 53.

(** The numbers of a list request are safe integers: the effective
    page, the effective limit and the offset [(page - 1) * limit].  In
    this range [parseInt], the subtraction and the product of the code
    are exact, and so are the integers here. *)
Definition exact_page_and_limit (req : Request) : Prop :=
  safe_integer (effective_page req) /\
  safe_integer (effective_limit req) /\
  safe_integer ((effective_page req - 1) * effective_limit req).

(** The [include] a by-id handler gives its lookup: [db.Course] in
    get-by-id, none in update and delete. *)
Definition lookup_include (a : Action) : option Model :=
  match a with
  | GetById => Some Course
  | _ => None
  end.

(** The five query parameters the list handlers read. *)
Definition list_keys : list string :=
  ["limit"; "page"; "sortBy"; "order"; "populate"].

(** Two requests give these five parameters alike. *)
Definition same_list_query (req req' : Request) : Prop :=
  Forall (fun k => query req !! k = query req' !! k) list_keys.

(** The request with one query parameter taken out. *)
Definition without (k : string) (req : Request) : Request :=
  {| query := delete k (query req);
     params_id := params_id req;
     body := body req |}.

(** The decimal text of an integer, [-] first when negative, as a client
    writes it into the query. *)
Definition decimal (n : Z) : string :=
  DecimalString.NilEmpty.string_of_int (Z.to_int n).

(** What may follow a number's text without being read as part of it:
    nothing, or a character that is not a decimal digit. *)
Definition stops_number (rest : string) : bool :=
  match rest with
  | EmptyString => true
  | String c _ => negb (isDecimalDigit c)
  end.

Definition starts_with_x (rest : string) : bool :=
  match rest with
  | String c _ => Ascii.eqb c "x" || Ascii.eqb c "X"
  | EmptyString => false
  end.

Fixpoint comma_free (s : string) : bool :=
  match s with
  | EmptyString => true
  | String c r => negb (Ascii.eqb c ",") && comma_free r
  end.

(** ** The primitives at work *)

Example parseInt_12 : JS.parseInt "12" = JS.Num 12. Proof. reflexivity. Qed.
Example parseInt_12abc : JS.parseInt "12abc" = JS.Num 12. Proof. reflexivity. Qed.
Example parseInt_abc : JS.parseInt "abc" = JS.NaN. Proof. reflexivity. Qed.
Example parseInt_neg : JS.parseInt "  -42px" = JS.Num (-42). Proof. reflexivity. Qed.
Example parseInt_hex : JS.parseInt "0x1f" = JS.Num 31. Proof. reflexivity. Qed.
Example parseInt_0x : JS.parseInt "0x" = JS.NaN. Proof. reflexivity. Qed.
Example parseInt_undefined : JS.parseInt (JS.ToString None) = JS.NaN. Proof. reflexivity. Qed.
Example split_ab : JS.split_comma "Course,Extra" = ["Course"; "Extra"]. Proof. reflexivity. Qed.
Example split_trailing : JS.split_comma "a," = ["a"; ""]. Proof. reflexivity. Qed.

(** ** What one invocation does, handler by handler *)

Section Runs.

Context {W : Type} (c : Collaborator W).

Lemma exec_create ctrl w req :
  exec c (handler ctrl Create req) w =
  match answer c (create (entity ctrl) (body req)) w with
  | (Resolved inst, w1) =>
      {| settled := Resolved {| status := 201; json := BInstance inst |};
         world := w1;
         calls := [Called (create (entity ctrl) (body req))] |}
  | (Rejected e, w1) =>
      {| settled := Resolved {| status := 500; json := BError (message e) |};
         world := w1;
         calls := [Called (create (entity ctrl) (body req))] |}
  end.
Proof.
  destruct ctrl; cbn;
    destruct (answer c (create _ (body req)) w) as [[inst|e] w1]; reflexivity.
Qed.

Lemma exec_list ctrl w req :
  exec c (handler ctrl List req) w =
  match answer c (count Course) w with
  | (Rejected e, w1) =>
      {| settled := Rejected e; world := w1;
         calls := [Called (count Course)] |}
  | (Resolved total, w1) =>
      match answer c (findAll (entity ctrl) (findAll_options req)) w1 with
      | (Resolved rows, w2) =>
          {| settled :=
               Resolved
                 {| status := 200;
                    json := BPage
                              {| totalItems := total;
                                 page := effective_page req;
                                 totalPages :=
                                   JS.Math_ceil_div total (effective_limit req) |}
                              rows |};
             world := w2;
             calls := [Called (count Course);
                       Called (findAll (entity ctrl) (findAll_options req))] |}
      | (Rejected e, w2) =>
          {| settled := Resolved {| status := 500; json := BError (message e) |};
             world := w2;
             calls := [Called (count Course);
                       Called (findAll (entity ctrl) (findAll_options req))] |}
      end
  end.
Proof.
  destruct ctrl; cbn -[JS.parseInt JS.split_comma];
    destruct (answer c (count Course) w) as [[total|e] w1];
    cbn -[JS.parseInt JS.split_comma]; try reflexivity;
    fold (effective_limit req) (effective_page req)
         (effective_sortBy req) (effective_order req) (populate_of req);
    fold (includes_of req); fold (findAll_options req);
    destruct (answer c (findAll _ (findAll_options req)) w1) as [[rows|e] w2];
    reflexivity.
Qed.

Lemma exec_getById ctrl w req :
  exec c (handler ctrl GetById req) w =
  let op := findByPk (entity ctrl) (params_id req) (Some Course) in
  match answer c op w with
  | (Resolved None, w1) =>
      {| settled := Resolved {| status := 404; json := BMessage "Not found" |};
         world := w1; calls := [Called op] |}
  | (Resolved (Some inst), w1) =>
      {| settled := Resolved {| status := 200; json := BInstance inst |};
         world := w1; calls := [Called op] |}
  | (Rejected e, w1) =>
      {| settled := Resolved {| status := 500; json := BError (message e) |};
         world := w1; calls := [Called op] |}
  end.
Proof.
  destruct ctrl; cbn;
    destruct (answer c (findByPk _ (params_id req) (Some Course)) w)
      as [[[inst|]|e] w1]; reflexivity.
Qed.

Lemma exec_update ctrl w req :
  exec c (handler ctrl Update req) w =
  let op := findByPk (entity ctrl) (params_id req) None in
  match answer c op w with
  | (Resolved None, w1) =>
      {| settled := Resolved {| status := 404; json := BMessage "Not found" |};
         world := w1; calls := [Called op] |}
  | (Resolved (Some inst), w1) =>
      match answer c (update inst (body req)) w1 with
      | (Resolved inst', w2) =>
          {| settled := Resolved {| status := 200; json := BInstance inst' |};
             world := w2;
             calls := [Called op; Called (update inst (body req))] |}
      | (Rejected e, w2) =>
          {| settled := Resolved {| status := 500; json := BError (message e) |};
             world := w2;
             calls := [Called op; Called (update inst (body req))] |}
      end
  | (Rejected e, w1) =>
      {| settled := Resolved {| status := 500; json := BError (message e) |};
         world := w1; calls := [Called op] |}
  end.
Proof.
  destruct ctrl; cbn;
    destruct (answer c (findByPk _ (params_id req) None) w)
      as [[[inst|]|e] w1]; cbn; try reflexivity;
    destruct (answer c (update inst (body req)) w1) as [[inst'|e] w2];
    reflexivity.
Qed.

Lemma exec_delete ctrl w req :
  exec c (handler ctrl Delete req) w =
  let op := findByPk (entity ctrl) (params_id req) None in
  match answer c op w with
  | (Resolved None, w1) =>
      {| settled := Resolved {| status := 404; json := BMessage "Not found" |};
         world := w1; calls := [Called op] |}
  | (Resolved (Some inst), w1) =>
      match answer c (destroy inst) w1 with
      | (Resolved _, w2) =>
          {| settled := Resolved {| status := 200; json := BMessage "Deleted" |};
             world := w2;
             calls := [Called op; Called (destroy inst)] |}
      | (Rejected e, w2) =>
          {| settled := Resolved {| status := 500; json := BError (message e) |};
             world := w2;
             calls := [Called op; Called (destroy inst)] |}
      end
  | (Rejected e, w1) =>
      {| settled := Resolved {| status := 500; json := BError (message e) |};
         world := w1; calls := [Called op] |}
  end.
Proof.
  destruct ctrl; cbn;
    destruct (answer c (findByPk _ (params_id req) None) w)
      as [[[inst|]|e] w1]; cbn; try reflexivity;
    destruct (answer c (destroy inst) w1) as [[[]|e] w2];
    reflexivity.
Qed.

(** Outside the list handlers nothing escapes: the handler's promise
    always resolves, with a response sent. *)
Lemma handler_responds ctrl a w req :
  a <> List ->
  exists r, settled (exec c (handler ctrl a req) w) = Resolved r.
Proof.
  intros Ha. destruct a; try congruence.
  - rewrite exec_create. destruct (answer c _ w) as [[?|?] ?]; eauto.
  - rewrite exec_getById. cbn zeta.
    destruct (answer c _ w) as [[[?|]|?] ?]; eauto.
  - rewrite exec_update. cbn zeta.
    destruct (answer c _ w) as [[[inst|]|?] w1]; eauto.
    destruct (answer c _ w1) as [[?|?] ?]; eauto.
  - rewrite exec_delete. cbn zeta.
    destruct (answer c _ w) as [[[inst|]|?] w1]; eauto.
    destruct (answer c _ w1) as [[?|?] ?]; eauto.
Qed.

End Runs.

(** With the database down, every handler but the list one answers 500
    with the raw message. *)
Lemma unavailable_500 ctrl a req e :
  a <> List ->
  settled (exec (W := unit) (unavailable e) (handler ctrl a req) tt) =
  Resolved {| status := 500; json := BError (message e) |}.
Proof. intros Ha. destruct ctrl, a; try congruence; reflexivity. Qed.

(** ** Facts about the primitives *)

Lemma Math_ceil_div_spec a b :
  b <> 0 -> ceiling_of_quotient a b (JS.Math_ceil_div a b).
Proof.
  intros Hb. unfold ceiling_of_quotient, JS.Math_ceil_div.
  pose proof (Z.div_mod (- a) b Hb) as Hdm.
  split; intros Hs.
  - pose proof (Z.mod_pos_bound (- a) b Hs). nia.
  - pose proof (Z.mod_neg_bound (- a) b Hs). nia.
Qed.

Lemma ceiling_of_quotient_unique a b n m :
  b <> 0 -> ceiling_of_quotient a b n -> ceiling_of_quotient a b m -> n = m.
Proof.
  intros Hb [Hn1 Hn2] [Hm1 Hm2].
  destruct (Z.lt_trichotomy b 0) as [Hneg|[->|Hpos]]; [|lia|].
  - specialize (Hn2 Hneg). specialize (Hm2 Hneg). nia.
  - specialize (Hn1 Hpos). specialize (Hm1 Hpos). nia.
Qed.

Lemma numOr_nonzero x d : d <> 0 -> JS.numOr x d <> 0.
Proof.
  intros Hd. destruct x as [|n]; cbn; [exact Hd|].
  destruct (n =? 0) eqn:E; [exact Hd|]. apply Z.eqb_neq, E.
Qed.

Lemma effective_limit_nonzero req : effective_limit req <> 0.
Proof. apply numOr_nonzero. lia. Qed.

Lemma numOr_NaN d : JS.numOr JS.NaN d = d.
Proof. reflexivity. Qed.

Lemma numOr_negative n d : n < 0 -> JS.numOr (JS.Num n) d = n.
Proof.
  intros Hn. cbn. destruct (n =? 0) eqn:E; [|reflexivity].
  apply Z.eqb_eq in E. lia.
Qed.

Lemma find_eq_truthy (l : list string) :
  JS.truthy (JS.find_eq "Course" l) = true <-> "Course" ∈ l.
Proof.
  unfold JS.find_eq. split.
  - destruct (List.find _ l) as [x|] eqn:E; [|discriminate].
    intros _. apply find_some in E as [Hin Hx].
    apply bool_decide_eq_true in Hx. subst x.
    by apply list_elem_of_In.
  - intros Hin. apply list_elem_of_In in Hin.
    destruct (List.find _ l) as [x|] eqn:E.
    + apply find_some in E as [_ Hx].
      apply bool_decide_eq_true in Hx. by subst x.
    + apply (find_none _ _ E) in Hin.
      by apply bool_decide_eq_false in Hin.
Qed.

Lemma includes_of_spec req :
  (populate_has_Course req -> includes_of req = [Course]) /\
  (~ populate_has_Course req -> includes_of req = []).
Proof.
  unfold includes_of, populate_has_Course, populate_of.
  destruct (JS.truthy _) eqn:E.
  - split; [done|]. intros Hno. exfalso. apply Hno.
    apply find_eq_truthy in E.
    destruct (query req !! "populate") as [s|]; [eauto|].
    by apply elem_of_nil in E.
  - split; [|done]. intros (s & Hs & Hin). rewrite Hs in E.
    apply find_eq_truthy in Hin. congruence.
Qed.

Lemma strOr_absent d : JS.strOr None d = d.
Proof. reflexivity. Qed.

Lemma strOr_given c s d : JS.strOr (Some (String c s)) d = String c s.
Proof. reflexivity. Qed.

(** A string with no decimal digit in it does not parse. *)
Lemma no_digit_trimStart s : no_digit s = true -> no_digit (JS.trimStart s) = true.
Proof.
  induction s as [|c r IH]; [done|]. cbn [JS.trimStart].
  destruct (JS.isWhiteSpace c); [|done].
  cbn. intros [_ H]%andb_prop. auto.
Qed.

Lemma no_digit_takeSign s :
  no_digit s = true -> no_digit (JS.takeSign s).2 = true.
Proof.
  destruct s as [|c r]; [done|].
  destruct c as [[] [] [] [] [] [] [] []]; cbn; try done.
Qed.

Lemma no_digit_takeRadix s : no_digit s = true -> JS.takeRadix s = (10, s).
Proof.
  destruct s as [|c r]; [done|].
  destruct c as [[] [] [] [] [] [] [] []]; cbn; try done.
Qed.

Lemma no_digit_parseDigits s : no_digit s = true -> JS.parseDigits 10 s = JS.NaN.
Proof.
  destruct s as [|c r]; [done|].
  destruct c as [[] [] [] [] [] [] [] []]; cbn; try done.
Qed.

Lemma no_digit_parseInt s : no_digit s = true -> JS.parseInt s = JS.NaN.
Proof.
  intros H%no_digit_trimStart%no_digit_takeSign. unfold JS.parseInt.
  destruct (JS.takeSign (JS.trimStart s)) as [sign str]. cbn [snd] in H.
  rewrite (no_digit_takeRadix _ H), (no_digit_parseDigits _ H). done.
Qed.

(** ** Failures of the persistence collaborator *)

(** C1.  Claimed: every failure raised by the persistence collaborator is
    caught inside the handler and answered with 500 and the raw message,
    a failure of [count()] in the list operation included.  The list
    handlers await [db.Course.count()] before their [try]: with the
    database down, the handler's promise rejects with the collaborator's
    error, after the one [count] call, and no response is sent, for
    either controller and any request. *)
Theorem list_count_failure_escapes ctrl req e :
  exec (W := unit) (unavailable e) (handler ctrl List req) tt =
  {| settled := Rejected e; world := tt; calls := [Called (count Course)] |}.
Proof. rewrite exec_list. reflexivity. Qed.

(** ** The list operation *)

(** C2.  With page, limit and offset safe integers: a list request that
    succeeds (status 200) carries the envelope
    [{totalItems, page, totalPages}] where [totalItems] is what [count]
    on the Course model resolved with (the only count made), [page] is
    the effective page and, the count being a safe integer too,
    [totalPages] is the ceiling of [totalItems / limit] for the
    effective limit.  And the request does succeed with this envelope
    whenever [count] and [findAll] resolve, for either controller. *)
Theorem list_meta_envelope ctrl {W} (c : Collaborator W) w req :
  exact_page_and_limit req ->
  (forall r,
      settled (exec c (handler ctrl List req) w) = Resolved r ->
      status r = 200 ->
      exists total w1 rows,
        answer c (count Course) w = (Resolved total, w1) /\
        countCalls (calls (exec c (handler ctrl List req) w)) = [Course] /\
        (safe_integer total ->
         json r = BPage {| totalItems := total;
                           page := effective_page req;
                           totalPages :=
                             JS.Math_ceil_div total (effective_limit req) |}
                        rows /\
         ceiling_of_quotient total (effective_limit req)
           (JS.Math_ceil_div total (effective_limit req)))) /\
  (forall total w1 rows w2,
      answer c (count Course) w = (Resolved total, w1) ->
      answer c (findAll (entity ctrl) (findAll_options req)) w1
      = (Resolved rows, w2) ->
      safe_integer total ->
      settled (exec c (handler ctrl List req) w)
      = Resolved
          {| status := 200;
             json := BPage {| totalItems := total;
                              page := effective_page req;
                              totalPages :=
                                JS.Math_ceil_div total (effective_limit req) |}
                           rows |} /\
      countCalls (calls (exec c (handler ctrl List req) w)) = [Course] /\
      ceiling_of_quotient total (effective_limit req)
        (JS.Math_ceil_div total (effective_limit req))).
Proof.
  intros _. split.
  - intros r. rewrite exec_list.
    destruct (answer c (count Course) w) as [[total|e] w1]; [|cbn; intros [=]].
    destruct (answer c (findAll _ _) w1) as [[rows|e] w2]; cbn.
    + intros [= <-] _. exists total, w1, rows.
      split; [reflexivity|]. split; [reflexivity|]. intros _.
      split; [reflexivity|].
      apply Math_ceil_div_spec, effective_limit_nonzero.
    + intros [= <-]. discriminate.
  - intros total w1 rows w2 Hc Hf _. rewrite exec_list, Hc, Hf. cbn.
    split; [reflexivity|]. split; [reflexivity|].
    apply Math_ceil_div_spec, effective_limit_nonzero.
Qed.

Lemma list_meta_envelope_witness :
  exact_page_and_limit (request_with [("limit", "2"); ("page", "1")]) /\
  settled (exec (canned 5 [] None)
             (handler TeacherController List
                (request_with [("limit", "2"); ("page", "1")])) tt)
  = Resolved
      {| status := 200;
         json := BPage {| totalItems := 5; page := 1; totalPages := 3 |} [] |} /\
  countCalls (calls (exec (canned 5 [] None)
                       (handler TeacherController List
                          (request_with [("limit", "2"); ("page", "1")])) tt))
  = [Course].
Proof.
  assert (Hreq : exact_page_and_limit
                   (request_with [("limit", "2"); ("page", "1")])).
  { repeat split; vm_compute; reflexivity. }
  assert (Htotal : safe_integer 5) by (vm_compute; reflexivity).
  split; [exact Hreq|].
  destruct (list_meta_envelope TeacherController (canned 5 [] None) tt
              (request_with [("limit", "2"); ("page", "1")]) Hreq)
    as [_ Hforward].
  destruct (Hforward 5 tt [] tt eq_refl eq_refl Htotal) as (Hs & Hc & _).
  split; [exact Hs|exact Hc].
Defined.

(** C3.  Every [findAll] of a list request has [include] equal to
    [[Course]] when the [populate] parameter, split on commas, has the
    element ["Course"], and empty otherwise (absent parameter included);
    and once [count] resolved there is exactly one such [findAll], on
    the controller's own model. *)
Theorem list_include_iff_populate_Course ctrl {W} (c : Collaborator W) w req :
  Forall (fun mo : Model * FindOptions =>
            (populate_has_Course req -> include mo.2 = [Course]) /\
            (~ populate_has_Course req -> include mo.2 = []))
         (findAllCalls (calls (exec c (handler ctrl List req) w))) /\
  (query req !! "populate" = None ->
   Forall (fun mo : Model * FindOptions => include mo.2 = [])
          (findAllCalls (calls (exec c (handler ctrl List req) w)))) /\
  (forall total w1,
      answer c (count Course) w = (Resolved total, w1) ->
      exists o, findAllCalls (calls (exec c (handler ctrl List req) w))
                = [(entity ctrl, o)]).
Proof.
  rewrite exec_list.
  destruct (answer c (count Course) w) as [[total|e] w1].
  - assert (Hinc : forall o : Model * FindOptions,
               o = (entity ctrl, findAll_options req) ->
               (populate_has_Course req -> include o.2 = [Course]) /\
               (~ populate_has_Course req -> include o.2 = [])).
    { intros o ->. apply includes_of_spec. }
    assert (Hnone : query req !! "populate" = None ->
                    include (findAll_options req) = []).
    { intros Hq. cbn. unfold includes_of, populate_of. by rewrite Hq. }
    destruct (answer c (findAll _ _) w1) as [[rows|e] w2]; cbn.
    + split; [|split].
      * constructor; [by apply Hinc|constructor].
      * intros Hq. constructor; [by apply Hnone|constructor].
      * intros. eauto.
    + split; [|split].
      * constructor; [by apply Hinc|constructor].
      * intros Hq. constructor; [by apply Hnone|constructor].
      * intros. eauto.
  - cbn. split; [|split]; try constructor. intros ? ? [=].
Qed.

Lemma list_include_iff_populate_Course_witness :
  populate_has_Course (request_with [("populate", "Extra,Course")]) /\
  Forall (fun mo : Model * FindOptions => include mo.2 = [Course])
    (findAllCalls
       (calls (exec (canned 5 [] None)
                 (handler TeacherController List
                    (request_with [("populate", "Extra,Course")])) tt))) /\
  exists o,
    findAllCalls
      (calls (exec (canned 5 [] None)
                (handler TeacherController List
                   (request_with [("populate", "Extra,Course")])) tt))
    = [(Teacher, o)].
Proof.
  assert (Hpop : populate_has_Course (request_with [("populate", "Extra,Course")])).
  { exists "Extra,Course". split; [reflexivity|].
    apply list_elem_of_In. cbn. right. left. reflexivity. }
  destruct (list_include_iff_populate_Course TeacherController
              (canned 5 [] None) tt
              (request_with [("populate", "Extra,Course")]))
    as (Hall & _ & Hone).
  split; [exact Hpop|]. split.
  - eapply Forall_impl; [exact Hall|]. intros mo [Hyes _]. exact (Hyes Hpop).
  - exact (Hone 5 tt eq_refl).
Defined.

(** ** Get by id *)

(** C4.  A get-by-id request makes exactly one call, [findByPk] on the
    controller's model with the path id and [include: db.Course],
    whatever the request's query (a [populate] parameter included) and
    however the collaborator behaves. *)
Theorem getById_always_joins_Course ctrl {W} (c : Collaborator W) w req :
  calls (exec c (handler ctrl GetById req) w) =
  [Called (findByPk (entity ctrl) (params_id req) (Some Course))].
Proof.
  rewrite exec_getById. cbn zeta.
  destruct (answer c _ w) as [[[inst|]|e] w1]; reflexivity.
Qed.

(** C5.  With page, limit and offset safe integers: every [findAll] of
    a list request asks for [limit] = the effective limit [l] and
    [offset] = [(p - 1) * l] for the effective page [p], on the
    controller's own model; and once [count] resolved there is exactly
    one such [findAll]. *)
Theorem list_limit_and_offset ctrl {W} (c : Collaborator W) w req :
  exact_page_and_limit req ->
  Forall (fun mo : Model * FindOptions =>
            mo.1 = entity ctrl /\
            limit mo.2 = effective_limit req /\
            offset mo.2 = (effective_page req - 1) * effective_limit req)
         (findAllCalls (calls (exec c (handler ctrl List req) w))) /\
  (forall total w1,
      answer c (count Course) w = (Resolved total, w1) ->
      List.length (findAllCalls (calls (exec c (handler ctrl List req) w))) = 1%nat).
Proof.
  intros _. rewrite exec_list.
  destruct (answer c (count Course) w) as [[total|e] w1].
  - destruct (answer c (findAll _ _) w1) as [[rows|e] w2]; cbn;
      (split; [repeat constructor|reflexivity]).
  - cbn. split; [constructor|]. intros ? ? [=].
Qed.

Lemma list_limit_and_offset_witness :
  exact_page_and_limit (request_with [("limit", "2"); ("page", "3")]) /\
  Forall (fun mo : Model * FindOptions =>
            mo.1 = Student /\ limit mo.2 = 2 /\ offset mo.2 = 4)
    (findAllCalls
       (calls (exec (canned 5 [] None)
                 (handler StudentController List
                    (request_with [("limit", "2"); ("page", "3")])) tt))) /\
  List.length (findAllCalls
       (calls (exec (canned 5 [] None)
                 (handler StudentController List
                    (request_with [("limit", "2"); ("page", "3")])) tt))) = 1%nat.
Proof.
  assert (Hreq : exact_page_and_limit
                   (request_with [("limit", "2"); ("page", "3")])).
  { repeat split; vm_compute; reflexivity. }
  split; [exact Hreq|].
  destruct (list_limit_and_offset StudentController (canned 5 [] None) tt
              (request_with [("limit", "2"); ("page", "3")]) Hreq)
    as [Hall Hone].
  split; [exact Hall|exact (Hone 5 tt eq_refl)].
Defined.

(** ** Not found *)

Section NotFound.

Context {W : Type} (c : Collaborator W).

(** The run of get-by-id, update or delete when the lookup resolves
    with null, whatever [include] it carries. *)
Lemma not_found_run ctrl a w w1 req :
  a = GetById \/ a = Update \/ a = Delete ->
  (forall inc,
      answer c (findByPk (entity ctrl) (params_id req) inc) w
      = (Resolved None, w1)) ->
  exists inc,
    exec c (handler ctrl a req) w =
    {| settled := Resolved {| status := 404; json := BMessage "Not found" |};
       world := w1;
       calls := [Called (findByPk (entity ctrl) (params_id req) inc)] |}.
Proof.
  intros [-> | [-> | ->]] Hnull.
  - exists (Some Course). rewrite exec_getById. cbn zeta. by rewrite Hnull.
  - exists None. rewrite exec_update. cbn zeta. by rewrite Hnull.
  - exists None. rewrite exec_delete. cbn zeta. by rewrite Hnull.
Qed.

(** The same run, told by the lookup the handler itself makes. *)
Lemma not_found_own_lookup_run ctrl a w w1 req :
  a = GetById \/ a = Update \/ a = Delete ->
  answer c (findByPk (entity ctrl) (params_id req) (lookup_include a)) w
  = (Resolved None, w1) ->
  exec c (handler ctrl a req) w =
  {| settled := Resolved {| status := 404; json := BMessage "Not found" |};
     world := w1;
     calls := [Called (findByPk (entity ctrl) (params_id req)
                         (lookup_include a))] |}.
Proof.
  intros [-> | [-> | ->]] Hnull; cbn [lookup_include] in *.
  - rewrite exec_getById. cbn zeta. by rewrite Hnull.
  - rewrite exec_update. cbn zeta. by rewrite Hnull.
  - rewrite exec_delete. cbn zeta. by rewrite Hnull.
Qed.

End NotFound.

(** C6.  When the id does not resolve to a record, that is when the
    lookup the handler makes ([findByPk] on its model and the path id,
    with [include: db.Course] in get-by-id and without in update and
    delete) resolves with null, get-by-id, update and delete answer 404
    with [{message: 'Not found'}]; that lookup is the only call made,
    so no patch is applied and nothing is destroyed, and the world is
    the one the lookup left. *)
Theorem not_found_answers_404 ctrl a {W} (c : Collaborator W) w w1 req :
  a = GetById \/ a = Update \/ a = Delete ->
  answer c (findByPk (entity ctrl) (params_id req) (lookup_include a)) w
  = (Resolved None, w1) ->
  settled (exec c (handler ctrl a req) w)
  = Resolved {| status := 404; json := BMessage "Not found" |} /\
  world (exec c (handler ctrl a req) w) = w1 /\
  List.filter writes (calls (exec c (handler ctrl a req) w)) = [] /\
  calls (exec c (handler ctrl a req) w)
  = [Called (findByPk (entity ctrl) (params_id req) (lookup_include a))].
Proof.
  intros Ha Hnull.
  rewrite (not_found_own_lookup_run c ctrl a w w1 req Ha Hnull). cbn.
  repeat split.
Qed.

Lemma not_found_answers_404_witness :
  settled (exec (canned 0 [] None)
             (handler TeacherController Delete
                {| query := ∅; params_id := "99999"; body := ∅ |}) tt)
  = Resolved {| status := 404; json := BMessage "Not found" |} /\
  world (exec (canned 0 [] None)
           (handler TeacherController Delete
              {| query := ∅; params_id := "99999"; body := ∅ |}) tt) = tt /\
  List.filter writes
    (calls (exec (canned 0 [] None)
              (handler TeacherController Delete
                 {| query := ∅; params_id := "99999"; body := ∅ |}) tt)) = [] /\
  calls (exec (canned 0 [] None)
           (handler TeacherController Delete
              {| query := ∅; params_id := "99999"; body := ∅ |}) tt)
  = [Called (findByPk Teacher "99999" None)].
Proof.
  apply (not_found_answers_404 TeacherController Delete (canned 0 [] None) tt tt
           {| query := ∅; params_id := "99999"; body := ∅ |}).
  - right. right. reflexivity.
  - reflexivity.
Defined.

(** ** Stored records, on the reference layer *)

Section OnReference.

Variable pk_of : string -> option Z.
Variable joined : Store -> Model -> Z -> list (gmap string Value).
Variable base : Collaborator Store.

Lemma table_with_table st m t m' :
  table (with_table st m t) m' = if decide (m' = m) then t else table st m'.
Proof. reflexivity. Qed.

(** A lookup of a key with no row resolves with null and leaves the
    store as it is. *)
Lemma reference_lookup_absent st m pk inc :
  (forall k, pk_of pk = Some k -> table st m !! k = None) ->
  answer (reference pk_of joined base) (findByPk m pk inc) st
  = (Resolved None, st).
Proof.
  intros Habs. cbn. unfold ref_findByPk.
  destruct (pk_of pk) as [k|]; [|done]. by rewrite (Habs k).
Qed.

(** On the 404 path the store is unchanged. *)
Lemma reference_not_found ctrl a st req :
  a = GetById \/ a = Update \/ a = Delete ->
  (forall k, pk_of (params_id req) = Some k ->
             table st (entity ctrl) !! k = None) ->
  settled (exec (reference pk_of joined base) (handler ctrl a req) st)
  = Resolved {| status := 404; json := BMessage "Not found" |} /\
  world (exec (reference pk_of joined base) (handler ctrl a req) st) = st.
Proof.
  intros Ha Habs.
  destruct (not_found_run (reference pk_of joined base) ctrl a st st req Ha)
    as [inc ->]; [|done].
  intros inc. by apply reference_lookup_absent.
Qed.

Lemma apply_patch_frame patch row f :
  patch !! f = None -> apply_patch patch row !! f = row !! f.
Proof.
  intros Hf. unfold apply_patch. apply lookup_union_r.
  destruct (decide (f = "id")) as [->|Hne].
  - apply lookup_delete_eq.
  - by rewrite lookup_delete_ne.
Qed.

Lemma apply_patch_set patch row f v :
  f <> "id" -> patch !! f = Some v -> apply_patch patch row !! f = Some v.
Proof.
  intros Hne Hf. unfold apply_patch. apply lookup_union_Some_l.
  by rewrite lookup_delete_ne.
Qed.

Lemma apply_patch_id patch row : apply_patch patch row !! "id" = row !! "id".
Proof. unfold apply_patch. apply lookup_union_r, lookup_delete_eq. Qed.

End OnReference.

(** C7.  On the reference layer, an update request whose id resolves to
    a stored record answers 200 with the record as it is stored after
    the update: every field the patch does not name is as it was before,
    every field it names (other than the immutable [id]) has the
    patch's value, and no other record of any model is touched. *)
Theorem update_changes_only_patched_fields
    ctrl pk_of joined base st req k (row : gmap string Value) :
  pk_of (params_id req) = Some k ->
  table st (entity ctrl) !! k = Some row ->
  exists inst',
    settled (exec (reference pk_of joined base) (handler ctrl Update req) st)
    = Resolved {| status := 200; json := BInstance inst' |} /\
    inst_model inst' = entity ctrl /\
    inst_pk inst' = k /\
    table (world (exec (reference pk_of joined base)
                    (handler ctrl Update req) st)) (entity ctrl) !! k
    = Some (dataValues inst') /\
    (forall f, body req !! f = None -> dataValues inst' !! f = row !! f) /\
    (forall f v, f <> "id" -> body req !! f = Some v ->
                 dataValues inst' !! f = Some v) /\
    dataValues inst' !! "id" = row !! "id" /\
    (forall m k', (m, k') <> (entity ctrl, k) ->
       table (world (exec (reference pk_of joined base)
                       (handler ctrl Update req) st)) m !! k'
       = table st m !! k').
Proof.
  intros Hpk Hrow. rewrite exec_update. cbn zeta.
  cbn [answer reference]. unfold ref_findByPk. rewrite Hpk, Hrow.
  unfold ref_update. cbn [inst_model inst_pk dataValues Courses settled world].
  eexists. split; [reflexivity|]. cbn [inst_model inst_pk dataValues].
  split; [reflexivity|]. split; [reflexivity|].
  split; [|split; [|split; [|split]]].
  - rewrite table_with_table. case_decide; [|done].
    by rewrite lookup_alter_eq, Hrow.
  - intros f Hf. by apply apply_patch_frame.
  - intros f v Hne Hf. by apply apply_patch_set.
  - apply apply_patch_id.
  - intros m k' Hne. rewrite table_with_table. case_decide as Hm; [|done].
    subst m. rewrite lookup_alter_ne; [done|]. congruence.
Qed.

Lemma update_changes_only_patched_fields_witness :
  exists inst',
    settled (exec reference_db (handler TeacherController Update rename_to_X)
               one_teacher)
    = Resolved {| status := 200; json := BInstance inst' |} /\
    dataValues inst' !! "name" = Some (VStr "X") /\
    dataValues inst' !! "department" = Some (VStr "Maths") /\
    dataValues inst' !! "id" = Some (VNum 7).
Proof.
  assert (Hpk : pk_parse (params_id rename_to_X) = Some 7) by reflexivity.
  assert (Hrow : table one_teacher (entity TeacherController) !! 7 = Some ada)
    by (vm_compute; reflexivity).
  destruct (update_changes_only_patched_fields TeacherController pk_parse
              (fun _ _ _ => []) (unavailable {| message := "not connected" |})
              one_teacher rename_to_X 7 ada Hpk Hrow)
    as (inst' & Hrun & _ & _ & _ & Hframe & Hset & Hid & _).
  exists inst'. split; [exact Hrun|]. split; [|split].
  - apply Hset; [discriminate|]. vm_compute; reflexivity.
  - rewrite Hframe; vm_compute; reflexivity.
  - rewrite Hid. vm_compute; reflexivity.
Defined.

(** ** Defaults of the list parameters *)

(** C8, as claimed, fails: with [sortBy] and [order] both absent the
    order argument of [findAll] is [[['id', 'asc']]], in lower case, not
    [[['id', 'ASC']]]. *)
Lemma order_default_is_lowercase :
  query (request_with []) !! "sortBy" = None /\
  query (request_with []) !! "order" = None /\
  exists o,
    findAllCalls (calls (exec (canned 5 [] None)
                           (handler StudentController List (request_with [])) tt))
    = [(Student, o)] /\
    order o = [("id", "asc")] /\
    order o <> [("id", "ASC")].
Proof.
  split; [reflexivity|]. split; [reflexivity|].
  eexists. split; [reflexivity|]. split; [reflexivity|]. discriminate.
Qed.

(** C8, amended.  Every [findAll] of a list request sorts by one
    [[column, direction]] pair; an absent [sortBy] gives column ["id"], an
    absent [order] gives direction ["asc"] (so with both absent the
    argument is [[['id', 'asc']]]), and a parameter given non-empty is
    passed as it is. *)
Theorem list_order_defaults ctrl {W} (c : Collaborator W) w req :
  Forall (fun mo : Model * FindOptions =>
            exists col dir,
              order mo.2 = [(col, dir)] /\
              (query req !! "sortBy" = None -> col = "id") /\
              (query req !! "order" = None -> dir = "asc") /\
              (forall a s, query req !! "sortBy" = Some (String a s) ->
                           col = String a s) /\
              (forall a s, query req !! "order" = Some (String a s) ->
                           dir = String a s))
         (findAllCalls (calls (exec c (handler ctrl List req) w))) /\
  (forall total w1,
      answer c (count Course) w = (Resolved total, w1) ->
      List.length (findAllCalls (calls (exec c (handler ctrl List req) w)))
      = 1%nat).
Proof.
  assert (Hord : exists col dir,
             order (findAll_options req) = [(col, dir)] /\
             (query req !! "sortBy" = None -> col = "id") /\
             (query req !! "order" = None -> dir = "asc") /\
             (forall a s, query req !! "sortBy" = Some (String a s) ->
                          col = String a s) /\
             (forall a s, query req !! "order" = Some (String a s) ->
                          dir = String a s)).
  { exists (effective_sortBy req), (effective_order req).
    unfold effective_sortBy, effective_order.
    split; [reflexivity|].
    repeat split; intros; by match goal with H : _ = _ |- _ => rewrite H end. }
  rewrite exec_list.
  destruct (answer c (count Course) w) as [[total|e] w1].
  - destruct (answer c (findAll _ _) w1) as [[rows|e] w2]; cbn;
      (split; [constructor; [exact Hord|constructor]|reflexivity]).
  - cbn. split; [constructor|]. intros ? ? [=].
Qed.

Lemma list_order_defaults_witness :
  findAllCalls (calls (exec (canned 5 [] None)
                         (handler TeacherController List
                            (request_with [("order", "DESC")])) tt))
  = [(Teacher, {| include := []; limit := 10; offset := 0;
                  order := [("id", "DESC")] |})] /\
  List.length
    (findAllCalls (calls (exec (canned 5 [] None)
                            (handler TeacherController List
                               (request_with [("order", "DESC")])) tt)))
  = 1%nat.
Proof.
  split; [reflexivity|].
  exact (proj2 (list_order_defaults TeacherController (canned 5 [] None) tt
                  (request_with [("order", "DESC")]))
           5 tt eq_refl).
Defined.

(** Every [findAll] of a list request is on the controller's model with
    the options built from the query. *)
Lemma findAll_calls_options ctrl {W} (c : Collaborator W) w req :
  Forall (fun mo : Model * FindOptions => mo = (entity ctrl, findAll_options req))
         (findAllCalls (calls (exec c (handler ctrl List req) w))).
Proof.
  rewrite exec_list.
  destruct (answer c (count Course) w) as [[total|e] w1]; [|constructor].
  destruct (answer c (findAll _ _) w1) as [[rows|e] w2]; cbn;
    repeat constructor.
Qed.

(** C9.  When [page] or [limit] does not parse ([parseInt] gives [NaN],
    as it does for an absent parameter and for any text with no digit
    in it), the list operation goes on with the default for it, page 1
    or limit 10: with the other number and the offset safe integers,
    these are the values of the one [findAll] it issues once [count]
    resolved; the response is 200 with that page whenever the two
    persistence calls resolve (the count a safe integer), and any
    response other than 200 comes from a rejected [findAll]. *)
Theorem list_parse_failure_falls_back ctrl {W} (c : Collaborator W) w req :
  JS.parseInt (JS.ToString (query req !! "page")) = JS.NaN \/
  JS.parseInt (JS.ToString (query req !! "limit")) = JS.NaN ->
  exact_page_and_limit req ->
  (JS.parseInt (JS.ToString (query req !! "page")) = JS.NaN ->
   effective_page req = 1 /\
   Forall (fun mo : Model * FindOptions => offset mo.2 = 0)
          (findAllCalls (calls (exec c (handler ctrl List req) w)))) /\
  (JS.parseInt (JS.ToString (query req !! "limit")) = JS.NaN ->
   effective_limit req = 10 /\
   Forall (fun mo : Model * FindOptions =>
             limit mo.2 = 10 /\ offset mo.2 = (effective_page req - 1) * 10)
          (findAllCalls (calls (exec c (handler ctrl List req) w)))) /\
  (forall total w1,
      answer c (count Course) w = (Resolved total, w1) ->
      findAllCalls (calls (exec c (handler ctrl List req) w))
      = [(entity ctrl, findAll_options req)]) /\
  (forall total w1 rows w2,
      answer c (count Course) w = (Resolved total, w1) ->
      answer c (findAll (entity ctrl) (findAll_options req)) w1
      = (Resolved rows, w2) ->
      safe_integer total ->
      settled (exec c (handler ctrl List req) w)
      = Resolved
          {| status := 200;
             json := BPage {| totalItems := total;
                              page := effective_page req;
                              totalPages :=
                                JS.Math_ceil_div total (effective_limit req) |}
                           rows |}) /\
  (forall r,
      settled (exec c (handler ctrl List req) w) = Resolved r ->
      status r <> 200 ->
      exists total w1 e w2,
        answer c (count Course) w = (Resolved total, w1) /\
        answer c (findAll (entity ctrl) (findAll_options req)) w1
        = (Rejected e, w2) /\
        r = {| status := 500; json := BError (message e) |}) /\
  (forall v : option string,
      v = None \/ (exists s, v = Some s /\ no_digit s = true) ->
      JS.parseInt (JS.ToString v) = JS.NaN).
Proof.
  intros _ _. split; [|split; [|split; [|split; [|split]]]].
  - intros Hp. assert (Hpage : effective_page req = 1).
    { unfold effective_page. by rewrite Hp. }
    split; [exact Hpage|].
    eapply Forall_impl; [apply findAll_calls_options|].
    intros mo ->. cbn. rewrite Hpage. lia.
  - intros Hl. assert (Hlimit : effective_limit req = 10).
    { unfold effective_limit. by rewrite Hl. }
    split; [exact Hlimit|].
    eapply Forall_impl; [apply findAll_calls_options|].
    intros mo ->. cbn. by rewrite Hlimit.
  - intros total w1 Hc. rewrite exec_list, Hc.
    by destruct (answer c (findAll _ _) w1) as [[rows|e] w2].
  - intros total w1 rows w2 Hc Hf _. by rewrite exec_list, Hc, Hf.
  - intros r. rewrite exec_list.
    destruct (answer c (count Course) w) as [[total|e] w1]; [|cbn; intros [=]].
    destruct (answer c (findAll _ _) w1) as [[rows|e] w2] eqn:Hf; cbn;
      intros [= <-]; cbn; [congruence|].
    intros _. by exists total, w1, e, w2.
  - intros v [-> | (s & -> & Hs)]; [reflexivity|]. by apply no_digit_parseInt.
Qed.

Lemma list_parse_failure_falls_back_witness :
  exact_page_and_limit (request_with [("page", "abc"); ("limit", "2")]) /\
  effective_page (request_with [("page", "abc"); ("limit", "2")]) = 1 /\
  findAllCalls
    (calls (exec (canned 5 [] None)
              (handler StudentController List
                 (request_with [("page", "abc"); ("limit", "2")])) tt))
  = [(Student,
      {| include := []; limit := 2; offset := 0; order := [("id", "asc")] |})] /\
  settled (exec (canned 5 [] None)
             (handler StudentController List
                (request_with [("page", "abc"); ("limit", "2")])) tt)
  = Resolved {| status := 200;
                json := BPage {| totalItems := 5; page := 1; totalPages := 3 |}
                              [] |}.
Proof.
  assert (Hnan : JS.parseInt
                   (JS.ToString
                      (query (request_with [("page", "abc"); ("limit", "2")])
                         !! "page")) = JS.NaN) by reflexivity.
  assert (Hreq : exact_page_and_limit
                   (request_with [("page", "abc"); ("limit", "2")])).
  { repeat split; vm_compute; reflexivity. }
  assert (Htotal : safe_integer 5) by (vm_compute; reflexivity).
  destruct (list_parse_failure_falls_back StudentController (canned 5 [] None) tt
              (request_with [("page", "abc"); ("limit", "2")])
              (or_introl Hnan) Hreq)
    as (Hpage & _ & Hone & Hok & _).
  split; [exact Hreq|]. split; [exact (proj1 (Hpage Hnan))|].
  split; [exact (Hone 5 tt eq_refl)|].
  exact (Hok 5 tt [] tt eq_refl eq_refl Htotal).
Defined.

(** C10.  A [page] or [limit] of ["0"] parses to 0, which is falsy, and
    the default (1, 10) is used as for text that does not parse; a
    [page] or [limit] that parses to a negative number is used as it
    is.  With page, limit and offset safe integers, these are the limit
    and offset of the one [findAll] the handler issues once [count]
    resolved, and the page of the envelope it answers with. *)
Theorem list_zero_defaults_negative_passes ctrl {W} (c : Collaborator W) w req :
  exact_page_and_limit req ->
  (query req !! "page" = Some "0" ->
   effective_page req = 1 /\
   Forall (fun mo : Model * FindOptions => offset mo.2 = 0)
          (findAllCalls (calls (exec c (handler ctrl List req) w)))) /\
  (query req !! "limit" = Some "0" ->
   effective_limit req = 10 /\
   Forall (fun mo : Model * FindOptions =>
             limit mo.2 = 10 /\ offset mo.2 = (effective_page req - 1) * 10)
          (findAllCalls (calls (exec c (handler ctrl List req) w)))) /\
  (forall s n,
      query req !! "page" = Some s -> JS.parseInt s = JS.Num n -> n < 0 ->
      effective_page req = n /\
      Forall (fun mo : Model * FindOptions =>
                offset mo.2 = (n - 1) * effective_limit req)
             (findAllCalls (calls (exec c (handler ctrl List req) w)))) /\
  (forall s n,
      query req !! "limit" = Some s -> JS.parseInt s = JS.Num n -> n < 0 ->
      effective_limit req = n /\
      Forall (fun mo : Model * FindOptions =>
                limit mo.2 = n /\ offset mo.2 = (effective_page req - 1) * n)
             (findAllCalls (calls (exec c (handler ctrl List req) w)))) /\
  (forall total w1,
      answer c (count Course) w = (Resolved total, w1) ->
      exists o,
        findAllCalls (calls (exec c (handler ctrl List req) w))
        = [(entity ctrl, o)] /\
        limit o = effective_limit req /\
        offset o = (effective_page req - 1) * effective_limit req) /\
  (forall total w1 rows w2,
      answer c (count Course) w = (Resolved total, w1) ->
      answer c (findAll (entity ctrl) (findAll_options req)) w1
      = (Resolved rows, w2) ->
      exists meta,
        settled (exec c (handler ctrl List req) w)
        = Resolved {| status := 200; json := BPage meta rows |} /\
        page meta = effective_page req).
Proof.
  intros _. split; [|split; [|split; [|split; [|split]]]].
  - intros Hq. assert (Hpage : effective_page req = 1).
    { unfold effective_page. by rewrite Hq. }
    split; [exact Hpage|].
    eapply Forall_impl; [apply findAll_calls_options|].
    intros mo ->. cbn. rewrite Hpage. lia.
  - intros Hq. assert (Hlimit : effective_limit req = 10).
    { unfold effective_limit. by rewrite Hq. }
    split; [exact Hlimit|].
    eapply Forall_impl; [apply findAll_calls_options|].
    intros mo ->. cbn. by rewrite Hlimit.
  - intros s n Hq Hs Hn. assert (Hpage : effective_page req = n).
    { unfold effective_page. rewrite Hq. cbn [JS.ToString]. rewrite Hs.
      by apply numOr_negative. }
    split; [exact Hpage|].
    eapply Forall_impl; [apply findAll_calls_options|].
    intros mo ->. cbn. by rewrite Hpage.
  - intros s n Hq Hs Hn. assert (Hlimit : effective_limit req = n).
    { unfold effective_limit. rewrite Hq. cbn [JS.ToString]. rewrite Hs.
      by apply numOr_negative. }
    split; [exact Hlimit|].
    eapply Forall_impl; [apply findAll_calls_options|].
    intros mo ->. cbn. by rewrite Hlimit.
  - intros total w1 Hc. exists (findAll_options req).
    rewrite exec_list, Hc.
    by destruct (answer c (findAll _ _) w1) as [[rows|e] w2].
  - intros total w1 rows w2 Hc Hf. rewrite exec_list, Hc, Hf.
    eexists. split; reflexivity.
Qed.

Lemma list_zero_defaults_negative_passes_witness :
  exact_page_and_limit (request_with [("page", "-3"); ("limit", "0")]) /\
  effective_limit (request_with [("page", "-3"); ("limit", "0")]) = 10 /\
  effective_page (request_with [("page", "-3"); ("limit", "0")]) = -3 /\
  exists o,
    findAllCalls
      (calls (exec (canned 5 [] None)
                (handler TeacherController List
                   (request_with [("page", "-3"); ("limit", "0")])) tt))
    = [(Teacher, o)] /\
    limit o = 10 /\ offset o = (-3 - 1) * 10.
Proof.
  assert (Hreq : exact_page_and_limit
                   (request_with [("page", "-3"); ("limit", "0")])).
  { repeat split; vm_compute; reflexivity. }
  destruct (list_zero_defaults_negative_passes TeacherController
              (canned 5 [] None) tt
              (request_with [("page", "-3"); ("limit", "0")]) Hreq)
    as (_ & Hzero & Hneg & _ & Hone & _).
  destruct (Hzero eq_refl) as [Hlimit _].
  destruct (Hneg "-3" (-3) eq_refl eq_refl eq_refl) as [Hpage _].
  destruct (Hone 5 tt eq_refl) as (o & Ho & Hl & Hoff).
  split; [exact Hreq|]. split; [exact Hlimit|]. split; [exact Hpage|].
  exists o. rewrite Hlimit in Hl, Hoff. rewrite Hpage in Hoff.
  split; [exact Ho|]. split; [exact Hl|exact Hoff].
Defined.


(** ** Whole runs, for any collaborator *)

Lemma exec_list_congr ctrl {W} (c : Collaborator W) w req req' :
  findAll_options req = findAll_options req' ->
  effective_page req = effective_page req' ->
  effective_limit req = effective_limit req' ->
  exec c (handler ctrl List req) w = exec c (handler ctrl List req') w.
Proof. intros Ho Hp Hl. rewrite !exec_list. by rewrite Ho, Hp, Hl. Qed.

(** Splits a statement about every call of a trace into one goal per
    call. *)
Ltac each_call :=
  repeat first [apply List.Forall_nil | apply List.Forall_cons].

(** X1.  Create reads the body and nothing else: requests with the same
    body make the same single call, [create] on the controller's own
    model with that body, and get the same answer, which is 201 with
    the instance the call resolved with, or 500 with the message of the
    error it rejected with. *)
Theorem create_reads_only_body ctrl {W} (c : Collaborator W) w req req' :
  body req = body req' ->
  exec c (handler ctrl Create req) w = exec c (handler ctrl Create req') w /\
  calls (exec c (handler ctrl Create req) w)
  = [Called (create (entity ctrl) (body req'))] /\
  exists out w1,
    answer c (create (entity ctrl) (body req')) w = (out, w1) /\
    world (exec c (handler ctrl Create req) w) = w1 /\
    settled (exec c (handler ctrl Create req) w)
    = Resolved match out with
               | Resolved inst => {| status := 201; json := BInstance inst |}
               | Rejected e => {| status := 500; json := BError (message e) |}
               end.
Proof.
  intros Hb. rewrite !exec_create, Hb.
  destruct (answer c (create _ _) w) as [[inst|e] w1] eqn:Ha; cbn;
    (split; [reflexivity|]); (split; [reflexivity|]); eauto.
Qed.

Lemma create_reads_only_body_witness :
  exec (canned 0 [] None)
    (handler StudentController Create
       {| query := ∅; params_id := "1"; body := {[ "name" := VStr "Ada" ]} |}) tt
  = exec (canned 0 [] None)
      (handler StudentController Create
         {| query := {[ "page" := "2" ]}; params_id := "9";
            body := {[ "name" := VStr "Ada" ]} |}) tt.
Proof.
  exact (proj1 (create_reads_only_body StudentController (canned 0 [] None) tt
                  {| query := ∅; params_id := "1";
                     body := {[ "name" := VStr "Ada" ]} |}
                  {| query := {[ "page" := "2" ]}; params_id := "9";
                     body := {[ "name" := VStr "Ada" ]} |}
                  eq_refl)).
Defined.

(** X2.  For a request whose query parameters are each given once, as
    a string (the requests of [Request]; on an array-valued [populate]
    the handlers throw at [.split] instead): a list handler's promise
    rejects exactly when [count] rejects, and with that very error; then
    [count] is the only call made, so the page is never fetched.  In
    every other run the promise resolves. *)
Theorem list_rejects_iff_count_rejects ctrl {W} (c : Collaborator W) w req :
  (forall e,
      settled (exec c (handler ctrl List req) w) = Rejected e <->
      exists w1, answer c (count Course) w = (Rejected e, w1)) /\
  (forall e,
      settled (exec c (handler ctrl List req) w) = Rejected e ->
      calls (exec c (handler ctrl List req) w) = [Called (count Course)]) /\
  (forall total w1,
      answer c (count Course) w = (Resolved total, w1) ->
      exists r, settled (exec c (handler ctrl List req) w) = Resolved r).
Proof.
  rewrite exec_list.
  destruct (answer c (count Course) w) as [[total|e0] w1] eqn:Hc.
  - destruct (answer c (findAll _ _) w1) as [[rows|e1] w2]; cbn;
      (split; [|split]); try (intros e; split; [intros [=]|intros [? [=]]]);
      try (intros e [=]); intros; eauto.
  - cbn. split; [|split].
    + intros e. split; [intros [= ->]; eauto|intros [? [= ->]]; reflexivity].
    + reflexivity.
    + intros ? ? [=].
Qed.

(** X3.  Listing and get-by-id only read: no run of either makes a
    [create], [update] or [destroy] call. *)
Theorem reads_never_write ctrl {W} (c : Collaborator W) w req :
  List.filter writes (calls (exec c (handler ctrl List req) w)) = [] /\
  List.filter writes (calls (exec c (handler ctrl GetById req) w)) = [].
Proof.
  rewrite exec_list, exec_getById. cbn zeta. split.
  - destruct (answer c (count Course) w) as [[total|e] w1]; [|reflexivity].
    destruct (answer c (findAll _ _) w1) as [[rows|e] w2]; reflexivity.
  - destruct (answer c (findByPk _ _ _) w) as [[[inst|]|e] w1]; reflexivity.
Qed.

(** X4.  A controller keeps to its own model: every static call of any
    of its handlers is made on that model, the one exception being the
    list handler's [count], which is made on Course. *)
Theorem calls_stay_on_own_model ctrl a {W} (c : Collaborator W) w req :
  Forall (fun cl =>
            forall m, addressed cl = Some m ->
                      m = entity ctrl \/
                      (m = Course /\ a = List /\ cl = Called (count Course)))
         (calls (exec c (handler ctrl a req) w)).
Proof.
  destruct a.
  - rewrite exec_create.
    destruct (answer c _ w) as [[?|?] ?]; cbn;
      each_call; intros m [= <-]; by left.
  - rewrite exec_list.
    destruct (answer c (count Course) w) as [[total|e] w1];
      [destruct (answer c (findAll _ _) w1) as [[rows|e] w2]|]; cbn;
      each_call; intros m [= <-]; (by left) || (by right).
  - rewrite exec_getById. cbn zeta.
    destruct (answer c _ w) as [[[?|]|?] ?]; cbn;
      each_call; intros m [= <-]; by left.
  - rewrite exec_update. cbn zeta.
    destruct (answer c _ w) as [[[inst|]|?] w1];
      [destruct (answer c _ w1) as [[?|?] ?]| |]; cbn;
      each_call; intros m [=]; subst; by left.
  - rewrite exec_delete. cbn zeta.
    destruct (answer c _ w) as [[[inst|]|?] w1];
      [destruct (answer c _ w1) as [[?|?] ?]| |]; cbn;
      each_call; intros m [=]; subst; by left.
Qed.

Lemma same_list_query_locals req req' :
  same_list_query req req' ->
  findAll_options req = findAll_options req' /\
  effective_page req = effective_page req' /\
  effective_limit req = effective_limit req'.
Proof.
  unfold same_list_query, list_keys. intros H.
  apply Forall_cons_1 in H as [Hlimit H].
  apply Forall_cons_1 in H as [Hpage H].
  apply Forall_cons_1 in H as [Hsort H].
  apply Forall_cons_1 in H as [Horder H].
  apply Forall_cons_1 in H as [Hpop _].
  unfold findAll_options, includes_of, populate_of, effective_sortBy,
    effective_order, effective_page, effective_limit.
  by rewrite Hlimit, Hpage, Hsort, Horder, Hpop.
Qed.

(** X5.  The list handlers read five query parameters and nothing else:
    requests that give [limit], [page], [sortBy], [order] and [populate]
    alike run alike, whatever else the query holds and whatever the path
    id and the body are. *)
Theorem list_reads_only_five_parameters ctrl {W} (c : Collaborator W) w req req' :
  same_list_query req req' ->
  exec c (handler ctrl List req) w = exec c (handler ctrl List req') w.
Proof.
  intros (Ho & Hp & Hl)%same_list_query_locals. by apply exec_list_congr.
Qed.

Lemma list_reads_only_five_parameters_witness :
  exec (canned 5 [] None)
    (handler TeacherController List (request_with [("page", "2")])) tt
  = exec (canned 5 [] None)
      (handler TeacherController List
         {| query := {[ "page" := "2"; "verbose" := "yes" ]};
            params_id := "77"; body := {[ "name" := VStr "X" ]} |}) tt.
Proof.
  apply (list_reads_only_five_parameters TeacherController (canned 5 [] None) tt
           (request_with [("page", "2")])
           {| query := {[ "page" := "2"; "verbose" := "yes" ]};
              params_id := "77"; body := {[ "name" := VStr "X" ]} |}).
  unfold same_list_query, list_keys. each_call; vm_compute; reflexivity.
Defined.

Lemma without_other k k' req :
  k <> k' -> query (without k req) !! k' = query req !! k'.
Proof. intros Hne. cbn. by apply lookup_delete_ne. Qed.

Lemma without_same k req : query (without k req) !! k = None.
Proof. cbn. apply lookup_delete_eq. Qed.

(** X6.  A list parameter given empty counts as not given: for each of
    the five parameters, a request with the empty string for it runs
    exactly as the request without it. *)
Theorem list_empty_parameter_is_absent ctrl {W} (c : Collaborator W) w req k :
  k ∈ list_keys ->
  query req !! k = Some EmptyString ->
  exec c (handler ctrl List req) w
  = exec c (handler ctrl List (without k req)) w.
Proof.
  intros Hk Hempty. apply exec_list_congr;
    unfold findAll_options, includes_of, populate_of, effective_sortBy,
      effective_order, effective_page, effective_limit;
    unfold list_keys in Hk;
    repeat (apply elem_of_cons in Hk as [->|Hk]);
    try (by apply elem_of_nil in Hk);
    rewrite ?without_same, ?without_other, ?Hempty by done;
    reflexivity.
Qed.

Lemma list_empty_parameter_is_absent_witness :
  exec (canned 5 [] None)
    (handler StudentController List
       (request_with [("limit", ""); ("page", "2")])) tt
  = exec (canned 5 [] None)
      (handler StudentController List
         (without "limit" (request_with [("limit", ""); ("page", "2")]))) tt.
Proof.
  apply (list_empty_parameter_is_absent StudentController (canned 5 [] None) tt
           (request_with [("limit", ""); ("page", "2")]) "limit").
  - apply list_elem_of_In. left. reflexivity.
  - vm_compute. reflexivity.
Defined.

(** X7.  A 404 means the lookup came back empty: whenever a handler
    answers 404, it is get-by-id, update or delete, its lookup on the
    controller's model and the path id resolved with null, that lookup
    is the only call it made, and the body is [{message: 'Not found'}]. *)
Theorem status_404_only_from_null_lookup
    ctrl a {W} (c : Collaborator W) w req r :
  settled (exec c (handler ctrl a req) w) = Resolved r ->
  status r = 404 ->
  (a = GetById \/ a = Update \/ a = Delete) /\
  json r = BMessage "Not found" /\
  exists inc w1,
    answer c (findByPk (entity ctrl) (params_id req) inc) w
    = (Resolved None, w1) /\
    calls (exec c (handler ctrl a req) w)
    = [Called (findByPk (entity ctrl) (params_id req) inc)].
Proof.
  destruct a.
  - rewrite exec_create.
    destruct (answer c _ w) as [[?|?] ?]; cbn; intros [= <-] [=].
  - rewrite exec_list.
    destruct (answer c (count Course) w) as [[total|e] w1];
      [destruct (answer c (findAll _ _) w1) as [[rows|e] w2]|]; cbn;
      intros [= <-]; intros [=].
  - rewrite exec_getById. cbn zeta.
    destruct (answer c _ w) as [[[?|]|?] w1] eqn:Ha; cbn;
      intros [= <-]; intros [=].
    split; [by left|]. split; [done|]. by exists (Some Course), w1.
  - rewrite exec_update. cbn zeta.
    destruct (answer c _ w) as [[[inst|]|?] w1] eqn:Ha;
      [destruct (answer c _ w1) as [[?|?] ?]| |]; cbn;
      intros [= <-]; intros [=].
    split; [by right; left|]. split; [done|]. by exists None, w1.
  - rewrite exec_delete. cbn zeta.
    destruct (answer c _ w) as [[[inst|]|?] w1] eqn:Ha;
      [destruct (answer c _ w1) as [[?|?] ?]| |]; cbn;
      intros [= <-]; intros [=].
    split; [by right; right|]. split; [done|]. by exists None, w1.
Qed.

Lemma status_404_only_from_null_lookup_witness :
  exists inc w1,
    answer (canned 0 [] None) (findByPk Student "42" inc) tt
    = (Resolved None, w1) /\
    calls (exec (canned 0 [] None)
             (handler StudentController Update
                {| query := ∅; params_id := "42"; body := ∅ |}) tt)
    = [Called (findByPk Student "42" inc)].
Proof.
  exact (proj2 (proj2
    (status_404_only_from_null_lookup StudentController Update
       (canned 0 [] None) tt {| query := ∅; params_id := "42"; body := ∅ |}
       {| status := 404; json := BMessage "Not found" |} eq_refl eq_refl))).
Defined.

(** X8.  Update and delete write only what they found: a run of either
    makes at most one writing call, and only after its lookup (made
    without a join) resolved with an instance; the call is then [update]
    of that very instance with the request body as the patch, or
    [destroy] of that very instance. *)
Theorem writes_only_on_found_instance ctrl a {W} (c : Collaborator W) w req :
  a = Update \/ a = Delete ->
  (List.length (List.filter writes (calls (exec c (handler ctrl a req) w)))
   <= 1)%nat /\
  Forall (fun cl =>
            writes cl = true ->
            exists inst w1,
              answer c (findByPk (entity ctrl) (params_id req) None) w
              = (Resolved (Some inst), w1) /\
              ((a = Update /\ cl = Called (update inst (body req))) \/
               (a = Delete /\ cl = Called (destroy inst))))
         (calls (exec c (handler ctrl a req) w)).
Proof.
  intros [-> | ->].
  - rewrite exec_update. cbn zeta.
    destruct (answer c _ w) as [[[inst|]|?] w1] eqn:Ha;
      [destruct (answer c _ w1) as [[?|?] ?]| |]; cbn;
      (split; [lia|]); each_call; cbn;
      first [by intros [=] | intros _; exists inst, w1; split; [done|by left]].
  - rewrite exec_delete. cbn zeta.
    destruct (answer c _ w) as [[[inst|]|?] w1] eqn:Ha;
      [destruct (answer c _ w1) as [[?|?] ?]| |]; cbn;
      (split; [lia|]); each_call; cbn;
      first [by intros [=] | intros _; exists inst, w1; split; [done|by right]].
Qed.

Lemma writes_only_on_found_instance_witness :
  (List.length
     (List.filter writes
        (calls (exec reference_db (handler TeacherController Delete rename_to_X)
                  one_teacher))) <= 1)%nat.
Proof.
  exact (proj1 (writes_only_on_found_instance TeacherController Delete
                  reference_db one_teacher rename_to_X
                  (or_intror eq_refl))).
Defined.

(** X9.  Delete, once the lookup resolved with an instance: the handler
    calls [destroy] on it and answers 200 with [{message: 'Deleted'}]
    when that resolves, 500 with the error's message when it rejects;
    the record itself is never sent back. *)
Theorem delete_found_outcome ctrl {W} (c : Collaborator W) w req inst w1 :
  answer c (findByPk (entity ctrl) (params_id req) None) w
  = (Resolved (Some inst), w1) ->
  exists out w2,
    answer c (destroy inst) w1 = (out, w2) /\
    world (exec c (handler ctrl Delete req) w) = w2 /\
    calls (exec c (handler ctrl Delete req) w)
    = [Called (findByPk (entity ctrl) (params_id req) None);
       Called (destroy inst)] /\
    settled (exec c (handler ctrl Delete req) w)
    = Resolved match out with
               | Resolved _ => {| status := 200; json := BMessage "Deleted" |}
               | Rejected e => {| status := 500; json := BError (message e) |}
               end.
Proof.
  intros Ha. rewrite exec_delete. cbn zeta. rewrite Ha.
  destruct (answer c (destroy inst) w1) as [[[]|e] w2] eqn:Hd; cbn;
    eexists _, w2; (split; [reflexivity|]); done.
Qed.

Lemma delete_found_outcome_witness :
  settled (exec reference_db (handler TeacherController Delete rename_to_X)
             one_teacher)
  = Resolved {| status := 200; json := BMessage "Deleted" |}.
Proof.
  destruct (delete_found_outcome TeacherController reference_db one_teacher
              rename_to_X
              {| inst_model := Teacher; inst_pk := 7; dataValues := ada;
                 Courses := None |}
              one_teacher eq_refl)
    as (out & w2 & Hd & _ & _ & Hs).
  rewrite Hs. cbn in Hd. injection Hd as <- _. reflexivity.
Defined.

(** X10.  Update, once the lookup resolved with an instance: the handler
    calls [update] on it with the request body, unchanged, as the patch,
    and answers 200 with the instance as that call left it (not as it
    was found), or 500 with the error's message when the call rejects. *)
Theorem update_found_outcome ctrl {W} (c : Collaborator W) w req inst w1 :
  answer c (findByPk (entity ctrl) (params_id req) None) w
  = (Resolved (Some inst), w1) ->
  exists out w2,
    answer c (update inst (body req)) w1 = (out, w2) /\
    world (exec c (handler ctrl Update req) w) = w2 /\
    calls (exec c (handler ctrl Update req) w)
    = [Called (findByPk (entity ctrl) (params_id req) None);
       Called (update inst (body req))] /\
    settled (exec c (handler ctrl Update req) w)
    = Resolved match out with
               | Resolved inst' => {| status := 200; json := BInstance inst' |}
               | Rejected e => {| status := 500; json := BError (message e) |}
               end.
Proof.
  intros Ha. rewrite exec_update. cbn zeta. rewrite Ha.
  destruct (answer c (update inst (body req)) w1) as [[inst'|e] w2] eqn:Hu; cbn;
    eexists _, w2; (split; [reflexivity|]); done.
Qed.

Lemma update_found_outcome_witness :
  exists out w2,
    answer (canned 0 [] (Some {| inst_model := Student; inst_pk := 3;
                                 dataValues := ∅; Courses := None |}))
      (update {| inst_model := Student; inst_pk := 3;
                 dataValues := ∅; Courses := None |} (body rename_to_X)) tt
    = (out, w2) /\
    settled (exec (canned 0 [] (Some {| inst_model := Student; inst_pk := 3;
                                        dataValues := ∅; Courses := None |}))
               (handler StudentController Update rename_to_X) tt)
    = Resolved match out with
               | Resolved inst' => {| status := 200; json := BInstance inst' |}
               | Rejected e => {| status := 500; json := BError (message e) |}
               end.
Proof.
  destruct (update_found_outcome StudentController
              (canned 0 [] (Some {| inst_model := Student; inst_pk := 3;
                                    dataValues := ∅; Courses := None |}))
              tt rename_to_X
              {| inst_model := Student; inst_pk := 3;
                 dataValues := ∅; Courses := None |} tt eq_refl)
    as (out & w2 & Hu & _ & _ & Hs).
  by exists out, w2.
Defined.

(** X11.  Status and body go together in every response any handler
    sends: an [{error}] body always has status 500; a [{message}] body is
    'Not found' with 404 or, for delete only, 'Deleted' with 200; a bare
    record has 201 from create and 200 from get-by-id and update; the
    [{meta, data}] envelope has 200 and comes from the list handlers.  So
    the status is always one of 200, 201, 404 and 500. *)
Theorem status_and_body_agree ctrl a {W} (c : Collaborator W) w req r :
  settled (exec c (handler ctrl a req) w) = Resolved r ->
  match json r with
  | BError _ => status r = 500
  | BMessage msg =>
      (msg = "Not found" /\ status r = 404 /\ a <> Create /\ a <> List) \/
      (msg = "Deleted" /\ status r = 200 /\ a = Delete)
  | BInstance _ =>
      (status r = 201 /\ a = Create) \/
      (status r = 200 /\ (a = GetById \/ a = Update))
  | BPage _ _ => status r = 200 /\ a = List
  end.
Proof.
  destruct a.
  - rewrite exec_create.
    destruct (answer c _ w) as [[?|?] ?]; cbn; intros [= <-]; cbn; auto.
  - rewrite exec_list.
    destruct (answer c (count Course) w) as [[total|e] w1];
      [destruct (answer c (findAll _ _) w1) as [[rows|e] w2]|]; cbn;
      intros [= <-]; cbn; auto.
  - rewrite exec_getById. cbn zeta.
    destruct (answer c _ w) as [[[?|]|?] w1]; cbn; intros [= <-]; cbn; auto.
    all: try (left; repeat split; discriminate).
  - rewrite exec_update. cbn zeta.
    destruct (answer c _ w) as [[[inst|]|?] w1];
      [destruct (answer c _ w1) as [[?|?] ?]| |]; cbn;
      intros [= <-]; cbn; auto.
    all: try (left; repeat split; discriminate).
  - rewrite exec_delete. cbn zeta.
    destruct (answer c _ w) as [[[inst|]|?] w1];
      [destruct (answer c _ w1) as [[?|?] ?]| |]; cbn;
      intros [= <-]; cbn; auto.
    all: try (left; repeat split; discriminate).
Qed.

Lemma status_and_body_agree_witness :
  status {| status := 500; json := BError "not connected" |} = 500.
Proof.
  exact (status_and_body_agree TeacherController Create
           (unavailable (W := unit) {| message := "not connected" |}) tt
           (request_with [])
           {| status := 500; json := BError "not connected" |} eq_refl).
Defined.

(** X12.  The page count in the envelope and the offset asked of
    [findAll] belong together: in a successful list run with page,
    limit and offset safe integers, a positive limit and a count that
    is a safe integer and not negative, the page number is within
    [totalPages] exactly when the offset is below [totalItems], and
    [totalPages] is zero exactly when there is nothing to list. *)
Theorem list_pages_match_offset ctrl {W} (c : Collaborator W) w req r :
  settled (exec c (handler ctrl List req) w) = Resolved r ->
  status r = 200 ->
  exact_page_and_limit req ->
  0 < effective_limit req ->
  exists meta rows o,
    json r = BPage meta rows /\
    findAllCalls (calls (exec c (handler ctrl List req) w))
    = [(entity ctrl, o)] /\
    page meta = effective_page req /\
    (0 <= totalItems meta -> safe_integer (totalItems meta) ->
     (page meta <= totalPages meta <-> offset o < totalItems meta) /\
     0 <= totalPages meta /\
     (totalPages meta = 0 <-> totalItems meta = 0)).
Proof.
  intros Hs Hok _ Hl. revert Hs. rewrite exec_list.
  destruct (answer c (count Course) w) as [[total|e] w1]; [|intros [=]].
  destruct (answer c (findAll _ _) w1) as [[rows|e] w2]; cbn;
    intros [= <-]; [|discriminate].
  eexists _, rows, (findAll_options req).
  split; [reflexivity|]. split; [reflexivity|]. split; [reflexivity|].
  cbn. intros Ht _.
  destruct (Math_ceil_div_spec total (effective_limit req)) as [Hpos _];
    [lia|]. specialize (Hpos Hl).
  set (n := JS.Math_ceil_div total (effective_limit req)) in *.
  set (l := effective_limit req) in *. set (p := effective_page req).
  repeat split; nia.
Qed.

Lemma list_pages_match_offset_witness :
  exists meta rows o,
    BPage {| totalItems := 5; page := 3; totalPages := 3 |} [] = BPage meta rows /\
    findAllCalls
      (calls (exec (canned 5 [] None)
                (handler StudentController List
                   (request_with [("limit", "2"); ("page", "3")])) tt))
    = [(Student, o)] /\
    page meta = 3 /\
    (0 <= totalItems meta -> safe_integer (totalItems meta) ->
     (page meta <= totalPages meta <-> offset o < totalItems meta) /\
     0 <= totalPages meta /\
     (totalPages meta = 0 <-> totalItems meta = 0)).
Proof.
  apply (list_pages_match_offset StudentController (canned 5 [] None) tt
           (request_with [("limit", "2"); ("page", "3")])
           {| status := 200;
              json := BPage {| totalItems := 5; page := 3; totalPages := 3 |} [] |});
    [reflexivity | reflexivity | repeat split; vm_compute; reflexivity
    | reflexivity].
Defined.

(** ** Numbers written in decimal *)

Lemma radixDigit_10_stop c :
  isDecimalDigit c = false -> JS.radixDigit 10 c = None.
Proof. destruct c as [[] [] [] [] [] [] [] []]; vm_compute; congruence. Qed.

Lemma scanDigits_stop rest acc :
  stops_number rest = true -> JS.scanDigits 10 rest acc = acc.
Proof.
  destruct rest as [|c r]; [done|]. cbn [stops_number JS.scanDigits].
  intros H%negb_true_iff. by rewrite radixDigit_10_stop.
Qed.

Lemma scanDigits_uint_acc u rest acc :
  stops_number rest = true ->
  JS.scanDigits 10 (DecimalString.NilEmpty.string_of_uint u ++ rest) (Z.pos acc)
  = Z.pos (Pos.of_uint_acc u acc).
Proof.
  intros Hrest. revert acc.
  induction u as [|u IH|u IH|u IH|u IH|u IH|u IH|u IH|u IH|u IH|u IH];
    intros acc; [by apply scanDigits_stop|..];
    simpl; rewrite <- IH; f_equal; lia.
Qed.

Lemma scanDigits_uint u rest :
  stops_number rest = true ->
  JS.scanDigits 10 (DecimalString.NilEmpty.string_of_uint u ++ rest) 0
  = Z.of_N (Pos.of_uint u).
Proof.
  intros Hrest.
  induction u as [|u IH|u IH|u IH|u IH|u IH|u IH|u IH|u IH|u IH|u IH];
    [by apply scanDigits_stop|..]; simpl;
    [exact IH|..]; by rewrite <- (scanDigits_uint_acc u rest _ Hrest).
Qed.

(** The digits of a number's text, with whatever follows. *)
Lemma parseDigits_uint u rest :
  u <> Decimal.Nil ->
  stops_number rest = true ->
  JS.parseDigits 10 (DecimalString.NilEmpty.string_of_uint u ++ rest)
  = JS.Num (Z.of_N (Pos.of_uint u)).
Proof.
  intros Hu Hrest. rewrite <- (scanDigits_uint u rest Hrest).
  destruct u; [done|..]; reflexivity.
Qed.

Lemma takeRadix_uint u rest :
  u <> Decimal.Nil ->
  (u = Decimal.D0 Decimal.Nil -> starts_with_x rest = false) ->
  JS.takeRadix (DecimalString.NilEmpty.string_of_uint u ++ rest)
  = (10, (DecimalString.NilEmpty.string_of_uint u ++ rest)%string).
Proof.
  intros Hu H0. destruct u as [|u|u|u|u|u|u|u|u|u|u]; try reflexivity; [done|].
  destruct u; try reflexivity.
  specialize (H0 eq_refl). simpl. destruct rest as [|c r]; [done|].
  destruct c as [[] [] [] [] [] [] [] []]; try reflexivity; discriminate.
Qed.

Lemma to_uint_not_zero p : Pos.to_uint p <> Decimal.D0 Decimal.Nil.
Proof.
  intros H. pose proof (DecimalPos.Unsigned.of_to p) as Hp.
  rewrite H in Hp. discriminate.
Qed.

Lemma to_uint_not_nil p : Pos.to_uint p <> Decimal.Nil.
Proof.
  intros H. pose proof (DecimalPos.Unsigned.of_to p) as Hp.
  rewrite H in Hp. discriminate.
Qed.

Lemma trimStart_uint u rest :
  u <> Decimal.Nil ->
  JS.trimStart (DecimalString.NilEmpty.string_of_uint u ++ rest)
  = (DecimalString.NilEmpty.string_of_uint u ++ rest)%string.
Proof. destruct u; [done|..]; reflexivity. Qed.

Lemma takeSign_uint u rest :
  u <> Decimal.Nil ->
  JS.takeSign (DecimalString.NilEmpty.string_of_uint u ++ rest)
  = (1, (DecimalString.NilEmpty.string_of_uint u ++ rest)%string).
Proof. destruct u; [done|..]; reflexivity. Qed.

Lemma parseInt_uint u rest :
  u <> Decimal.Nil ->
  (u = Decimal.D0 Decimal.Nil -> starts_with_x rest = false) ->
  stops_number rest = true ->
  JS.parseInt (DecimalString.NilEmpty.string_of_uint u ++ rest)
  = JS.Num (Z.of_N (Pos.of_uint u)) /\
  JS.parseInt (String "-" (DecimalString.NilEmpty.string_of_uint u ++ rest))
  = JS.Num (- Z.of_N (Pos.of_uint u)).
Proof.
  intros Hu H0 Hrest. unfold JS.parseInt. cbn [JS.trimStart].
  change (JS.isWhiteSpace "-") with false. cbv iota.
  change (JS.takeSign (String "-" ?s)) with (-1, s).
  rewrite trimStart_uint, takeSign_uint by done.
  rewrite takeRadix_uint, parseDigits_uint by done.
  split; f_equal; lia.
Qed.

(** The decimal text of an integer parses back to it, also with other
    text after it. *)
Lemma parseInt_decimal n rest :
  stops_number rest = true ->
  (n = 0 -> starts_with_x rest = false) ->
  JS.parseInt (decimal n ++ rest) = JS.Num n.
Proof.
  intros Hrest H0. unfold decimal.
  rewrite <- (DecimalZ.of_to n) at 2.
  destruct n as [|p|p]; cbn [Z.to_int DecimalString.NilEmpty.string_of_int Z.of_int Z.of_uint].
  - apply parseInt_uint; auto; discriminate.
  - apply parseInt_uint; auto using to_uint_not_nil.
    intros H. by apply to_uint_not_zero in H.
  - apply parseInt_uint; auto using to_uint_not_nil.
    intros H. by apply to_uint_not_zero in H.
Qed.

(** X13.  A page and a limit written in decimal are taken at their
    value, whatever follows the digits (a unit, a decimal point, ...):
    for safe integers [p] and [l] with a safe offset, a non-zero page
    [p] and limit [l] reach [findAll] as [limit = l] and
    [offset = (p - 1) * l], a zero gives the default, 1 or 10, and once
    [count] resolved exactly one [findAll] with these values is issued.
    The one text after a zero that changes the reading is an [x] or
    [X], which makes it a hexadecimal prefix. *)
Theorem list_honours_decimal_page_and_limit
    ctrl {W} (c : Collaborator W) w req p l rp rl :
  query req !! "page" = Some (decimal p ++ rp)%string ->
  query req !! "limit" = Some (decimal l ++ rl)%string ->
  stops_number rp = true -> stops_number rl = true ->
  (p = 0 -> starts_with_x rp = false) ->
  (l = 0 -> starts_with_x rl = false) ->
  safe_integer p -> safe_integer l ->
  safe_integer (((if p =? 0 then 1 else p) - 1) * (if l =? 0 then 10 else l)) ->
  effective_page req = (if p =? 0 then 1 else p) /\
  effective_limit req = (if l =? 0 then 10 else l) /\
  Forall (fun mo : Model * FindOptions =>
            limit mo.2 = (if l =? 0 then 10 else l) /\
            offset mo.2 = ((if p =? 0 then 1 else p) - 1)
                          * (if l =? 0 then 10 else l))
         (findAllCalls (calls (exec c (handler ctrl List req) w))) /\
  (forall total w1,
      answer c (count Course) w = (Resolved total, w1) ->
      exists o,
        findAllCalls (calls (exec c (handler ctrl List req) w))
        = [(entity ctrl, o)] /\
        limit o = (if l =? 0 then 10 else l) /\
        offset o = ((if p =? 0 then 1 else p) - 1)
                   * (if l =? 0 then 10 else l)).
Proof.
  intros Hp Hl Hrp Hrl Hp0 Hl0 _ _ _.
  assert (Hpage : effective_page req = (if p =? 0 then 1 else p)).
  { unfold effective_page. rewrite Hp. cbn [JS.ToString].
    by rewrite parseInt_decimal. }
  assert (Hlimit : effective_limit req = (if l =? 0 then 10 else l)).
  { unfold effective_limit. rewrite Hl. cbn [JS.ToString].
    by rewrite parseInt_decimal. }
  split; [exact Hpage|]. split; [exact Hlimit|]. split.
  - eapply Forall_impl; [apply findAll_calls_options|].
    intros mo ->. cbn. by rewrite Hpage, Hlimit.
  - intros total w1 Hc. exists (findAll_options req).
    rewrite exec_list, Hc. cbn [limit offset findAll_options].
    rewrite Hpage, Hlimit.
    by destruct (answer c (findAll _ _) w1) as [[rows|e] w2].
Qed.

Lemma list_honours_decimal_page_and_limit_witness :
  exists o,
    findAllCalls
      (calls (exec (canned 5 [] None)
                (handler StudentController List
                   (request_with [("page", "3rd"); ("limit", "25.5")])) tt))
    = [(Student, o)] /\ limit o = 25 /\ offset o = 50.
Proof.
  assert (H3 : safe_integer 3) by (vm_compute; reflexivity).
  assert (H25 : safe_integer 25) by (vm_compute; reflexivity).
  assert (H50 : safe_integer (((if 3 =? 0 then 1 else 3) - 1)
                              * (if 25 =? 0 then 10 else 25)))
    by (vm_compute; reflexivity).
  exact (proj2 (proj2 (proj2
    (list_honours_decimal_page_and_limit StudentController (canned 5 [] None) tt
       (request_with [("page", "3rd"); ("limit", "25.5")]) 3 25 "rd" ".5"
       eq_refl eq_refl eq_refl eq_refl
       (fun H : 3 = 0 => eq_refl) (fun H : 25 = 0 => eq_refl)
       H3 H25 H50))) 5 tt eq_refl).
Defined.

(** ** Splitting on commas *)

Lemma append_cons c (s t : string) :
  (String c s ++ t)%string = String c (s ++ t).
Proof. reflexivity. Qed.

Lemma split_comma_nonempty s : JS.split_comma s <> [].
Proof.
  destruct s as [|c r]; [done|]. cbn.
  destruct (Ascii.eqb c ","); [done|]. by destruct (JS.split_comma r).
Qed.

Lemma split_comma_free s : comma_free s = true -> JS.split_comma s = [s].
Proof.
  induction s as [|c r IH]; [done|]. cbn.
  destruct (Ascii.eqb c ","); [done|]. cbn. intros Hr. by rewrite IH.
Qed.

Lemma split_comma_app x s :
  comma_free x = true ->
  JS.split_comma (x ++ String "," s) = x :: JS.split_comma s.
Proof.
  induction x as [|c r IH]; [done|]. simpl.
  destruct (Ascii.eqb c ","); [done|]. simpl. intros Hr. by rewrite IH.
Qed.

Lemma split_comma_concat names :
  names <> [] ->
  Forall (fun x => comma_free x = true) names ->
  JS.split_comma (String.concat "," names) = names.
Proof.
  intros Hne Hall. induction Hall as [|x rest Hx Hrest IH]; [done|].
  destruct rest as [|y rest'].
  - cbn. by apply split_comma_free.
  - change (String.concat "," (x :: y :: rest'))
      with (x ++ String "," (String.concat "," (y :: rest')))%string.
    rewrite split_comma_app by done. f_equal. by apply IH.
Qed.

(** X14.  Splitting on commas loses nothing and leaves no comma behind:
    the pieces, joined with commas again, give the text back; there is
    always at least one piece; no piece holds a comma; and a list of
    comma-free names, joined, splits back into exactly those names. *)
Theorem split_comma_round_trip s names :
  String.concat "," (JS.split_comma s) = s /\
  JS.split_comma s <> [] /\
  Forall (fun x => comma_free x = true) (JS.split_comma s) /\
  (names <> [] ->
   Forall (fun x => comma_free x = true) names ->
   JS.split_comma (String.concat "," names) = names).
Proof.
  split; [|split; [apply split_comma_nonempty|split; [|apply split_comma_concat]]].
  - induction s as [|c r IH]; [done|]. cbn [JS.split_comma].
    pose proof (split_comma_nonempty r) as Hne.
    destruct (Ascii.eqb c ",") eqn:Ec.
    + apply Ascii.eqb_eq in Ec as ->.
      destruct (JS.split_comma r) as [|h t]; [done|].
      change (String.concat "," (EmptyString :: h :: t))
        with (String "," (String.concat "," (h :: t))).
      by rewrite IH.
    + destruct (JS.split_comma r) as [|h t]; [done|].
      destruct t as [|y t']; simpl in IH |- *; [by rewrite IH|].
      rewrite append_cons. f_equal. exact IH.
  - induction s as [|c r IH]; [by each_call|]. cbn [JS.split_comma].
    destruct (Ascii.eqb c ",") eqn:Ec.
    + by apply List.Forall_cons.
    + destruct (JS.split_comma r) as [|h t].
      * apply List.Forall_cons; [cbn; by rewrite Ec|apply List.Forall_nil].
      * apply Forall_cons_1 in IH as [Hh Ht].
        apply List.Forall_cons; [|done]. cbn. by rewrite Ec.
Qed.

Lemma split_comma_round_trip_witness :
  JS.split_comma (String.concat "," ["Course"; ""; "Extra"])
  = ["Course"; ""; "Extra"].
Proof.
  apply (split_comma_round_trip "" ["Course"; ""; "Extra"]).
  - discriminate.
  - each_call; reflexivity.
Defined.

(** X15.  [populate] given as names joined by commas: Course is joined
    in exactly when one of the names is ["Course"], letter for letter,
    wherever in the list it stands. *)
Theorem list_populate_by_names ctrl {W} (c : Collaborator W) w req names :
  names <> [] ->
  Forall (fun x => comma_free x = true) names ->
  query req !! "populate" = Some (String.concat "," names) ->
  Forall (fun mo : Model * FindOptions =>
            ("Course" ∈ names -> include mo.2 = [Course]) /\
            ("Course" ∉ names -> include mo.2 = []))
         (findAllCalls (calls (exec c (handler ctrl List req) w))).
Proof.
  intros Hne Hall Hq.
  eapply Forall_impl; [apply findAll_calls_options|].
  intros mo ->. cbn. unfold includes_of, populate_of.
  rewrite Hq, split_comma_concat by done.
  destruct (JS.truthy _) eqn:E.
  - apply find_eq_truthy in E. split; [done|]. by intros [].
  - split; [|done]. intros Hin%find_eq_truthy. congruence.
Qed.

Lemma list_populate_by_names_witness :
  Forall (fun mo : Model * FindOptions => include mo.2 = [Course])
    (findAllCalls
       (calls (exec (canned 5 [] None)
                 (handler StudentController List
                    (request_with [("populate", "Extra,Course")])) tt))).
Proof.
  eapply Forall_impl;
    [apply (list_populate_by_names StudentController (canned 5 [] None) tt
              (request_with [("populate", "Extra,Course")])
              ["Extra"; "Course"]);
     [discriminate | each_call; reflexivity | reflexivity]|].
  intros mo [Hyes _]. apply Hyes.
  apply list_elem_of_In. right. left. reflexivity.
Defined.

(** X16.  The by-id handlers read only what they need: get-by-id and
    delete depend on the path id alone, update on the path id and the
    body; the query never matters to any of them. *)
Theorem by_id_handlers_ignore_query ctrl {W} (c : Collaborator W) w req req' :
  params_id req = params_id req' ->
  exec c (handler ctrl GetById req) w = exec c (handler ctrl GetById req') w /\
  exec c (handler ctrl Delete req) w = exec c (handler ctrl Delete req') w /\
  (body req = body req' ->
   exec c (handler ctrl Update req) w = exec c (handler ctrl Update req') w).
Proof.
  intros Hid. rewrite !exec_getById, !exec_delete, !exec_update, Hid.
  split; [reflexivity|]. split; [reflexivity|]. by intros ->.
Qed.

Lemma by_id_handlers_ignore_query_witness :
  exec reference_db (handler TeacherController GetById (request_with []))
    one_teacher
  = exec reference_db
      (handler TeacherController GetById
         (request_with [("populate", "none"); ("page", "4")]))
      one_teacher.
Proof.
  exact (proj1 (by_id_handlers_ignore_query TeacherController reference_db
                  one_teacher (request_with [])
                  (request_with [("populate", "none"); ("page", "4")])
                  eq_refl)).
Defined.

(** ** When nothing fails, and when something does *)

(** X17.  No failure, no 500: for a request whose query parameters are
    each given once, as a string, a run in which no call the handler
    makes rejects ends with a response whose status is 200, 201 or 404;
    a 500 is sent only after exactly one call rejected and carries that
    error's message; and a handler's promise rejects only with the
    error of its one rejected call. *)
Theorem no_failure_no_500 ctrl a {W} (c : Collaborator W) w req :
  (failures c (handler ctrl a req) w = [] ->
   exists r,
     settled (exec c (handler ctrl a req) w) = Resolved r /\
     (status r = 200 \/ status r = 201 \/ status r = 404)) /\
  (forall r,
      settled (exec c (handler ctrl a req) w) = Resolved r ->
      status r = 500 ->
      exists e,
        failures c (handler ctrl a req) w = [e] /\
        json r = BError (message e)) /\
  (forall e,
      settled (exec c (handler ctrl a req) w) = Rejected e ->
      failures c (handler ctrl a req) w = [e]).
Proof.
  destruct ctrl, a; cbn -[JS.parseInt JS.split_comma];
    repeat match goal with
           | |- context [answer c ?op ?w0] =>
               destruct (answer c op w0) as [[?|?] ?];
               cbn -[JS.parseInt JS.split_comma]
           | |- context [match ?o with Some _ => _ | None => _ end] =>
               is_var o; destruct o; cbn -[JS.parseInt JS.split_comma]
           end;
    (split; [|split]).
  all: lazymatch goal with
       | |- _ = [] -> _ =>
           intros Hf;
           first [discriminate Hf
                 | eexists; split; [reflexivity|cbn; by auto]]
       | |- forall _ : Response, _ =>
           intros resp Hr Hs;
           first [discriminate Hr
                 | injection Hr as <-; cbn in Hs;
                   first [discriminate Hs
                         | eexists; split; reflexivity]]
       | |- forall _ : Error, _ =>
           intros err Herr;
           first [discriminate Herr | by injection Herr as <-]
       end.
Qed.

Lemma no_failure_no_500_witness :
  exists r,
    settled (exec (canned 5 [] None)
               (handler StudentController List (request_with [])) tt)
    = Resolved r /\
    (status r = 200 \/ status r = 201 \/ status r = 404).
Proof.
  exact (proj1 (no_failure_no_500 StudentController List (canned 5 [] None) tt
                  (request_with [])) eq_refl).
Defined.

Lemma handler_responds_witness :
  exists r,
    settled (exec reference_db (handler TeacherController Update rename_to_X)
               one_teacher) = Resolved r.
Proof.
  apply (handler_responds reference_db TeacherController Update one_teacher
           rename_to_X).
  discriminate.
Defined.
